(** * Smart-cart server: scan-toggle and checkout state machine

    A shallow embedding of [src/index.js] (the Express application
    exported for deployment) and the properties of its request handlers.

    Modelling conventions.

    - Strings are Rocq [string]s read as sequences of 7-bit ASCII
      characters, the alphabet of RFID tag ids and of the catalog keys.
      [toUpperCase] and the whitespace class [\s] are embedded on that
      alphabet.
    - JavaScript numbers that hold prices, totals and epoch milliseconds
      are integers [Z]; [Array.prototype.length] is a [nat].  The totals
      of reachable carts stay within a range where the arithmetic of
      JavaScript numbers is exact: see [reachable_total_bounds].
    - The handlers are embedded on string fields: [tag_id] and [cart_id]
      of a scan request are strings or missing ([None]), path parameters
      are strings.  [scan_json] adds the guard of the scan handler on a
      [tag_id] that is any JSON value.
    - The two module-level objects [products] and [carts] are used by the
      code as string-keyed maps and are embedded as [gmap]s of their own
      properties.  A lookup in an object literal also finds inherited
      properties: for the catalog this never happens
      ([normalize_not_inherited]); for the store it happens for the cart
      ids that are not plain ([plain_id]).  Module [Obj] embeds the store
      with its prototype chain and relates it to the map; statements
      about the map that depend on a cart id being looked up as a cart
      carry the hypothesis that the id is plain.
    - Statements that depend on what normalization computes are stated
      for ASCII tags ([ascii_only]).
    - Both objects live in the server state [Server], which every handler
      receives and returns; a handler's response is the pair of the HTTP
      status and the JSON body it sends.
    - [new Date()] and [Date.now()] read the system clock; every textual
      occurrence is a field of [Clock], the readings taken while one
      request is served. *)

From Stdlib Require Import ZArith String Ascii List Lia.
From stdpp Require Import base option list strings gmap fin_maps.

Local Open Scope string_scope.
Local Open Scope Z_scope.
Local Open Scope list_scope.

(** ** Data model *)

Definition Timestamp := Z.

Module Product.
Record t := mk { name : string; price : Z; category : string }.
End Product.

Module Item.
Record t := mk {
  tag_id : string;
  name : string;
  price : Z;
  category : string;
  scannedAt : Timestamp
}.
End Item.

Module Cart.
Record t := mk {
  id : string;
  items : list Item.t;
  total : Z;
  createdAt : Timestamp
}.
End Cart.

Module Receipt.
Record t := mk {
  receiptId : Timestamp;  (* the number n of the identifier [RCP-n] *)
  items : list Item.t;
  total : Z;
  itemCount : nat;
  checkoutTime : Timestamp
}.
End Receipt.

(** The heap of the process: the catalog object and the cart store. *)
Record Server := mkServer {
  products : gmap string Product.t;
  carts : gmap string Cart.t
}.

(** The clock readings of one request, one per occurrence in the source. *)
Record Clock := mkClock {
  at_getCart : Timestamp;   (* [createdAt] in [getCart] *)
  at_scanned : Timestamp;   (* [scannedAt] of a pushed item *)
  at_cleared : Timestamp;   (* [createdAt] in the clear handler *)
  at_receipt : Timestamp;   (* [Date.now()] of the receipt id *)
  at_checkout : Timestamp;  (* [checkoutTime] *)
  at_reset : Timestamp;     (* [createdAt] of the cart put back by checkout *)
  at_health : Timestamp     (* [timestamp] of the health reply *)
}.

Inductive Action := added | removed.

Inductive Body :=
| ErrorBody (error : string)
| ScanBody (action : Action) (product : string) (price : Z)
           (cart_total : Z) (cart_items : nat) (cart : Cart.t)
| CartBody (cart : Cart.t)
| ClearBody (message : string) (cart : Cart.t)
| ReceiptBody (receipt : Receipt.t)
| HealthBody (status : string) (timestamp : Timestamp)
| ProductsBody (catalog : gmap string Product.t).

Definition Response : Type := Z * Body.

(** The three error replies of the handlers. *)
Definition InvalidInput : Response := (400, ErrorBody "tag_id is required").
Definition UnknownProduct : Response := (404, ErrorBody "Unknown product").
Definition EmptyCart : Response := (400, ErrorBody "Cart is empty").

(** ** The catalog literal and the initial state *)

Definition catalog : gmap string Product.t :=
  list_to_map
    [ ("A1B2C3D4", Product.mk "Milk (1L)" 40 "Dairy");
      ("11223344", Product.mk "Bread (White)" 30 "Bakery");
      ("55667788", Product.mk "Rice (1kg)" 65 "Grains");
      ("AABBCCDD", Product.mk "Eggs (6 pcs)" 48 "Dairy");
      ("99887766", Product.mk "Butter (100g)" 55 "Dairy");
      ("DEADBEEF", Product.mk "Apple Juice (500ml)" 80 "Beverages");
      ("CAFEBABE", Product.mk "Biscuits (200g)" 25 "Snacks");
      ("F00DCAFE", Product.mk "Chips (150g)" 35 "Snacks") ].

Definition initial : Server := mkServer catalog ∅.

(** ** Tag normalization: [tag.toUpperCase().replace(/\s+/g, "")] *)

Definition is_lower (c : ascii) : bool :=
  ((97 <=? nat_of_ascii c) && (nat_of_ascii c <=? 122))%nat.

Definition upper_char (c : ascii) : ascii :=
  if is_lower c then ascii_of_nat (nat_of_ascii c - 32) else c.

Fixpoint toUpperCase (s : string) : string :=
  match s with
  | EmptyString => EmptyString
  | String c s' => String (upper_char c) (toUpperCase s')
  end.

(** The ASCII members of [\s]: tab, line feed, vertical tab, form feed,
    carriage return and space. *)
Definition is_space (c : ascii) : bool :=
  let n := nat_of_ascii c in
  ((9 <=? n) && (n <=? 13) || (n =? 32))%nat.

(** Replacing every maximal run of whitespace by the empty string drops
    exactly the whitespace characters. *)
Fixpoint remove_whitespace (s : string) : string :=
  match s with
  | EmptyString => EmptyString
  | String c s' =>
      if is_space c then remove_whitespace s' else String c (remove_whitespace s')
  end.

Definition normalize (tag : string) : string :=
  remove_whitespace (toUpperCase tag).

(** ** Array helpers *)

(** [Array.prototype.findIndex]: the index of the first element that
    satisfies [p], or [-1]. *)
Fixpoint findIndex {A} (p : A -> bool) (l : list A) : Z :=
  match l with
  | [] => -1
  | x :: l' =>
      if p x then 0
      else let i := findIndex p l' in if i =? -1 then -1 else i + 1
  end.

(** [l.splice(i, 1)] for an index [0 <= i]: the array without the element
    at [i]. *)
Definition splice1 {A} (i : Z) (l : list A) : list A :=
  take (Z.to_nat i) l ++ drop (S (Z.to_nat i)) l.

(** ** The store *)

Definition fresh_cart (cartId : string) (now : Timestamp) : Cart.t :=
  Cart.mk cartId [] 0 now.

(** [getCart]: the cart stored under [cartId], created first when the id
    has no entry.  A stored cart is an object, hence truthy. *)
Definition getCart (now : Timestamp) (cartId : string) (s : Server)
  : Cart.t * Server :=
  match carts s !! cartId with
  | Some cart => (cart, s)
  | None =>
      let cart := fresh_cart cartId now in
      (cart, mkServer (products s) (<[cartId := cart]> (carts s)))
  end.

(** ** Request handlers *)

(** [POST /api/scan] with body [{tag_id, cart_id}]; either field may be
    missing.  [!tag_id] holds for a missing field and for the empty
    string. *)
Definition scan (clk : Clock) (tag_id cart_id : option string) (s : Server)
  : Response * Server :=
  let cart_id := default "default" cart_id in
  match tag_id with
  | None => (InvalidInput, s)
  | Some "" => (InvalidInput, s)
  | Some tag_id =>
      let normalizedTag := normalize tag_id in
      match products s !! normalizedTag with
      | None => (UnknownProduct, s)
      | Some product =>
          let '(cart, s) := getCart (at_getCart clk) cart_id s in
          let existingIndex :=
            findIndex (fun item => bool_decide (Item.tag_id item = normalizedTag))
                      (Cart.items cart) in
          let '(action, cart) :=
            if negb (existingIndex =? -1) then
              (removed,
               Cart.mk (Cart.id cart)
                       (splice1 existingIndex (Cart.items cart))
                       (Cart.total cart - Product.price product)
                       (Cart.createdAt cart))
            else
              (added,
               Cart.mk (Cart.id cart)
                       (Cart.items cart ++
                          [Item.mk normalizedTag (Product.name product)
                                   (Product.price product)
                                   (Product.category product)
                                   (at_scanned clk)])
                       (Cart.total cart + Product.price product)
                       (Cart.createdAt cart)) in
          ((200, ScanBody action (Product.name product) (Product.price product)
                          (Cart.total cart) (length (Cart.items cart)) cart),
           mkServer (products s) (<[cart_id := cart]> (carts s)))
      end
  end.

(** [GET /api/cart/:cartId] *)
Definition cart_get (clk : Clock) (cartId : string) (s : Server)
  : Response * Server :=
  let '(cart, s) := getCart (at_getCart clk) cartId s in
  ((200, CartBody cart), s).

(** [POST /api/cart/:cartId/clear].  The reply reads [carts[cartId]] back,
    which is the object stored by the statement before it. *)
Definition cart_clear (clk : Clock) (cartId : string) (s : Server)
  : Response * Server :=
  let cart := Cart.mk cartId [] 0 (at_cleared clk) in
  ((200, ClearBody "Cart cleared" cart),
   mkServer (products s) (<[cartId := cart]> (carts s))).

(** [POST /api/cart/:cartId/checkout] *)
Definition cart_checkout (clk : Clock) (cartId : string) (s : Server)
  : Response * Server :=
  let '(cart, s) := getCart (at_getCart clk) cartId s in
  if (length (Cart.items cart) =? 0)%nat then (EmptyCart, s)
  else
    let receipt :=
      Receipt.mk (at_receipt clk) (Cart.items cart) (Cart.total cart)
                 (length (Cart.items cart)) (at_checkout clk) in
    ((200, ReceiptBody receipt),
     mkServer (products s)
              (<[cartId := Cart.mk cartId [] 0 (at_reset clk)]> (carts s))).

(** [GET /api/simulate/:tagId].  The body of the handler is a second copy
    of the scan logic, embedded as written. *)
Definition simulate (clk : Clock) (tagId : string) (s : Server)
  : Response * Server :=
  let normalizedTag := normalize tagId in
  match products s !! normalizedTag with
  | None => (UnknownProduct, s)
  | Some product =>
      let '(cart, s) := getCart (at_getCart clk) "default" s in
      let existingIndex :=
        findIndex (fun item => bool_decide (Item.tag_id item = normalizedTag))
                  (Cart.items cart) in
      let '(action, cart) :=
        if negb (existingIndex =? -1) then
          (removed,
           Cart.mk (Cart.id cart)
                   (splice1 existingIndex (Cart.items cart))
                   (Cart.total cart - Product.price product)
                   (Cart.createdAt cart))
        else
          (added,
           Cart.mk (Cart.id cart)
                   (Cart.items cart ++
                      [Item.mk normalizedTag (Product.name product)
                               (Product.price product)
                               (Product.category product)
                               (at_scanned clk)])
                   (Cart.total cart + Product.price product)
                   (Cart.createdAt cart)) in
      ((200, ScanBody action (Product.name product) (Product.price product)
                      (Cart.total cart) (length (Cart.items cart)) cart),
       mkServer (products s) (<[ "default" := cart]> (carts s)))
  end.

(** [GET /api/health] and [GET /api/products] *)
Definition health (clk : Clock) (s : Server) : Response * Server :=
  ((200, HealthBody "ok" (at_health clk)), s).

Definition products_get (s : Server) : Response * Server :=
  ((200, ProductsBody (products s)), s).

(** ** Requests and runs *)

Inductive Request :=
| Scan (tag_id cart_id : option string)
| GetCart (cartId : string)
| Clear (cartId : string)
| Checkout (cartId : string)
| Simulate (tagId : string)
| Health
| Products.

Definition handle (clk : Clock) (r : Request) (s : Server) : Response * Server :=
  match r with
  | Scan tag_id cart_id => scan clk tag_id cart_id s
  | GetCart cartId => cart_get clk cartId s
  | Clear cartId => cart_clear clk cartId s
  | Checkout cartId => cart_checkout clk cartId s
  | Simulate tagId => simulate clk tagId s
  | Health => health clk s
  | Products => products_get s
  end.

(** The states the server can be in: the initial one and those reached by
    serving one more request. *)
Inductive reachable : Server -> Prop :=
| reachable_initial : reachable initial
| reachable_step clk r s : reachable s -> reachable (handle clk r s).2.

(** Serving a list of requests in order, each with its clock readings. *)
Fixpoint run (rs : list (Clock * Request)) (s : Server) : Server :=
  match rs with
  | [] => s
  | (clk, r) :: rs' => run rs' (handle clk r s).2
  end.

Definition clock0 : Clock := mkClock 0 0 0 0 0 0 0.

(** ** Derived notions used in the statements *)

(** Sum of [items[*].price]. *)
Definition sum_prices (l : list Item.t) : Z :=
  foldr (fun item acc => Item.price item + acc) 0 l.

(** The cart that a lookup of [cartId] yields: the stored one, or the
    empty cart that [getCart] creates at time [now]. *)
Definition cart_of (now : Timestamp) (cartId : string) (s : Server) : Cart.t :=
  default (fresh_cart cartId now) (carts s !! cartId).

(** The total and the item count a client observes for [cartId]. *)
Definition total_of (cartId : string) (s : Server) : Z :=
  Cart.total (cart_of 0 cartId s).

Definition count_of (cartId : string) (s : Server) : nat :=
  length (Cart.items (cart_of 0 cartId s)).

(** The cart id a request addresses, if any. *)
Definition target (r : Request) : option string :=
  match r with
  | Scan _ cart_id => Some (default "default" cart_id)
  | GetCart cartId | Clear cartId | Checkout cartId => Some cartId
  | Simulate _ => Some "default"
  | Health | Products => None
  end.

(** The toggle of the scan handler, as a function of the looked-up cart. *)
Definition toggle (now : Timestamp) (tag : string) (p : Product.t) (c : Cart.t)
  : Action * Cart.t :=
  let i := findIndex (fun item => bool_decide (Item.tag_id item = tag)) (Cart.items c) in
  if negb (i =? -1) then
    (removed,
     Cart.mk (Cart.id c) (splice1 i (Cart.items c))
             (Cart.total c - Product.price p) (Cart.createdAt c))
  else
    (added,
     Cart.mk (Cart.id c)
             (Cart.items c ++
                [Item.mk tag (Product.name p) (Product.price p) (Product.category p) now])
             (Cart.total c + Product.price p) (Cart.createdAt c)).

(** The names [Object.prototype] defines, which a lookup in an object
    literal also finds. *)
Definition object_prototype_names : list string :=
  [ "constructor"; "hasOwnProperty"; "isPrototypeOf"; "propertyIsEnumerable";
    "toLocaleString"; "toString"; "valueOf"; "__proto__";
    "__defineGetter__"; "__defineSetter__"; "__lookupGetter__"; "__lookupSetter__" ].

Fixpoint has_lower (s : string) : bool :=
  match s with
  | EmptyString => false
  | String c s' => is_lower c || has_lower s'
  end.

(** ** Domains on which the embedding is exact *)

(** A string of 7-bit characters.  On such strings [toUpperCase] and
    [is_space] are the JavaScript operations; beyond them JavaScript also
    maps accented letters and strips further Unicode spaces. *)
Fixpoint ascii_only (s : string) : bool :=
  match s with
  | EmptyString => true
  | String c s' => (nat_of_ascii c <? 128)%nat && ascii_only s'
  end.

(** The fields of a cart object, which a lookup in the store also finds
    once a cart has become the store's prototype. *)
Definition cart_field_names : list string := [ "id"; "items"; "total"; "createdAt" ].

(** A cart id that names no inherited property of the store object.  For
    such an id [carts[cartId]] is the own property or [undefined], and
    an assignment creates the own property: the store behaves as the
    finite map [carts]. *)
Definition plain_id (cartId : string) : bool :=
  negb (bool_decide (cartId ∈ object_prototype_names)) &&
  negb (bool_decide (cartId ∈ cart_field_names)).

(** ** The request body as JSON *)

(** The value of a body field.  Numbers are given by an integer; a
    fractional number behaves as a nonzero one.  Arrays and objects are
    truthy values that are no strings. *)
Inductive Json :=
| JNull
| JBool (b : bool)
| JNum (n : Z)
| JStr (s : string)
| JArray
| JObject.

(** JavaScript truthiness of a field; [None] is a missing field. *)
Definition truthy (v : option Json) : bool :=
  match v with
  | None | Some JNull | Some (JBool false) | Some (JNum 0) | Some (JStr "") => false
  | Some _ => true
  end.


(** ** Normalization, with the alphabet spelled out *)






(** ** The store as a JavaScript object

    [carts] is an object literal: a lookup [carts[k]] that finds no own
    property continues in the prototype, which is [Object.prototype]
    until an assignment to [carts["__proto__"]] (an inherited setter)
    replaces it by the assigned cart.  This module embeds the store with
    that chain, and on it [getCart] and the clear and checkout handlers:
    the handlers that can write under an arbitrary id.  [Obj.read_plain]
    and the lemmas after it relate it to the finite map [carts]. *)
Module Obj.

Record Store := mk {
  own : gmap string Cart.t;    (* the own properties, one cart each *)
  proto : option Cart.t        (* the cart that is the prototype, if any *)
}.

(** What [carts[k]] evaluates to.  Of a value that is no cart, a function
    or a field of the prototype cart, the handlers use the truthiness
    only: any property they read from it is [undefined]. *)
Inductive Slot :=
| Undefined
| ACart (c : Cart.t)
| Other (truthy : bool).

Definition truthy (v : Slot) : bool :=
  match v with
  | Undefined => false
  | ACart _ => true
  | Other b => b
  end.

Definition from_Object_prototype (k : string) : Slot :=
  if bool_decide (k ∈ object_prototype_names) then Other true else Undefined.

(** [carts[k]] *)
Definition read (k : string) (st : Store) : Slot :=
  if bool_decide (k = "__proto__") then
    match proto st with
    | Some c => ACart c
    | None => Other true
    end
  else
    match own st !! k with
    | Some c => ACart c
    | None =>
        match proto st with
        | Some c =>
            if bool_decide (k = "id") then Other (negb (String.eqb (Cart.id c) ""))
            else if bool_decide (k = "items") then Other true
            else if bool_decide (k = "total") then Other (negb (Cart.total c =? 0))
            else if bool_decide (k = "createdAt") then Other true
            else from_Object_prototype k
        | None => from_Object_prototype k
        end
    end.

(** [carts[k] = c]: the inherited setter for ["__proto__"], an own
    property for every other key. *)
Definition write (k : string) (c : Cart.t) (st : Store) : Store :=
  if bool_decide (k = "__proto__") then mk (own st) (Some c)
  else mk (<[k := c]> (own st)) (proto st).

(** A handler replies, or throws a [TypeError] that the framework
    answers with status 500. *)
Inductive Outcome :=
| Replied (r : Response) (st : Store)
| Threw (st : Store).

Definition getCart (now : Timestamp) (cartId : string) (st : Store) : Slot * Store :=
  if truthy (read cartId st) then (read cartId st, st)
  else
    let st := write cartId (fresh_cart cartId now) st in
    (read cartId st, st).

(** [POST /api/cart/:cartId/clear]; the reply reads back the cart the
    assignment stored ([read_write]). *)
Definition cart_clear (clk : Clock) (cartId : string) (st : Store) : Outcome :=
  let cart := Cart.mk cartId [] 0 (at_cleared clk) in
  Replied (200, ClearBody "Cart cleared" cart) (write cartId cart st).

(** [POST /api/cart/:cartId/checkout]; on a value that is no cart,
    [cart.items] is [undefined] and reading its [length] throws. *)
Definition cart_checkout (clk : Clock) (cartId : string) (st : Store) : Outcome :=
  let '(v, st) := getCart (at_getCart clk) cartId st in
  match v with
  | ACart cart =>
      if (length (Cart.items cart) =? 0)%nat then Replied EmptyCart st
      else
        let receipt :=
          Receipt.mk (at_receipt clk) (Cart.items cart) (Cart.total cart)
                     (length (Cart.items cart)) (at_checkout clk) in
        Replied (200, ReceiptBody receipt)
                (write cartId (Cart.mk cartId [] 0 (at_reset clk)) st)
  | _ => Threw st
  end.

(** The store of a process that has just started. *)
Definition initial : Store := mk ∅ None.

End Obj.

(** ** The cart invariant *)

(** An item is priced by the catalog [ps] when its tag is a catalog key
    and it carries that product's price. *)
Definition priced (ps : gmap string Product.t) (item : Item.t) : Prop :=
  exists p, ps !! Item.tag_id item = Some p /\ Item.price item = Product.price p.

Record cart_ok (ps : gmap string Product.t) (c : Cart.t) : Prop := {
  ok_total : Cart.total c = sum_prices (Cart.items c);
  ok_nodup : NoDup (Item.tag_id <$> Cart.items c);
  ok_priced : Forall (priced ps) (Cart.items c)
}.

Definition inv (s : Server) : Prop :=
  forall cartId c, carts s !! cartId = Some c -> cart_ok (products s) c.

(** The catalog price of a tag ([0] for a tag that is no key) and the
    list of catalog keys. *)
Definition price_of (ps : gmap string Product.t) (tag : string) : Z :=
  from_option Product.price 0 (ps !! tag).

Definition catalog_keys : list string := (map_to_list catalog).*1.

(** ** A sample run *)

Definition demo_requests : list (Clock * Request) :=
  [ (clock0, Scan (Some "a1b2c3d4") (Some "c1"));
    (clock0, Scan (Some "dead beef") (Some "c1")) ].

Definition demo : Server := run demo_requests initial.

Definition demo_cart : Cart.t :=
  Cart.mk "c1"
    [ Item.mk "A1B2C3D4" "Milk (1L)" 40 "Dairy" 0;
      Item.mk "DEADBEEF" "Apple Juice (500ml)" 80 "Beverages" 0 ]
    120 0.

(** ** The standalone server

    The second source file of the repository starts the same application
    with [app.listen].  Its [getCart] and its health, products, cart,
    clear and checkout handlers are the ones above, with a line of
    logging added.  Its scan and simulate handlers differ in the reply to
    an unknown product, which also carries the normalized tag; they are
    embedded here as written.  Writing to the console is not part of the
    model. *)
Module Standalone.

Inductive Reply :=
| Sent (status : Z) (body : Body)
| SentUnknown (status : Z) (error tag_id : string).

Definition scan (clk : Clock) (tag_id cart_id : option string) (s : Server)
  : Reply * Server :=
  let cart_id := default "default" cart_id in
  match tag_id with
  | None => (Sent 400 (ErrorBody "tag_id is required"), s)
  | Some "" => (Sent 400 (ErrorBody "tag_id is required"), s)
  | Some tag_id =>
      let normalizedTag := normalize tag_id in
      match products s !! normalizedTag with
      | None => (SentUnknown 404 "Unknown product" normalizedTag, s)
      | Some product =>
          let '(cart, s) := getCart (at_getCart clk) cart_id s in
          let existingIndex :=
            findIndex (fun item => bool_decide (Item.tag_id item = normalizedTag))
                      (Cart.items cart) in
          let '(action, cart) :=
            if negb (existingIndex =? -1) then
              (removed,
               Cart.mk (Cart.id cart)
                       (splice1 existingIndex (Cart.items cart))
                       (Cart.total cart - Product.price product)
                       (Cart.createdAt cart))
            else
              (added,
               Cart.mk (Cart.id cart)
                       (Cart.items cart ++
                          [Item.mk normalizedTag (Product.name product)
                                   (Product.price product)
                                   (Product.category product)
                                   (at_scanned clk)])
                       (Cart.total cart + Product.price product)
                       (Cart.createdAt cart)) in
          let response :=
            ScanBody action (Product.name product) (Product.price product)
                     (Cart.total cart) (length (Cart.items cart)) cart in
          (Sent 200 response,
           mkServer (products s) (<[cart_id := cart]> (carts s)))
      end
  end.

Definition simulate (clk : Clock) (tagId : string) (s : Server)
  : Reply * Server :=
  let tag_id := tagId in
  let normalizedTag := normalize tag_id in
  match products s !! normalizedTag with
  | None => (SentUnknown 404 "Unknown product" normalizedTag, s)
  | Some product =>
      let '(cart, s) := getCart (at_getCart clk) "default" s in
      let existingIndex :=
        findIndex (fun item => bool_decide (Item.tag_id item = normalizedTag))
                  (Cart.items cart) in
      let '(action, cart) :=
        if negb (existingIndex =? -1) then
          (removed,
           Cart.mk (Cart.id cart)
                   (splice1 existingIndex (Cart.items cart))
                   (Cart.total cart - Product.price product)
                   (Cart.createdAt cart))
        else
          (added,
           Cart.mk (Cart.id cart)
                   (Cart.items cart ++
                      [Item.mk normalizedTag (Product.name product)
                               (Product.price product)
                               (Product.category product)
                               (at_scanned clk)])
                   (Cart.total cart + Product.price product)
                   (Cart.createdAt cart)) in
      (Sent 200 (ScanBody action (Product.name product) (Product.price product)
                          (Cart.total cart) (length (Cart.items cart)) cart),
       mkServer (products s) (<[ "default" := cart]> (carts s)))
  end.

(** The reply with the extra field of the unknown-product body dropped. *)
Definition plain (r : Reply) : Response :=
  match r with
  | Sent status body => (status, body)
  | SentUnknown status error _ => (status, ErrorBody error)
  end.

End Standalone.

(** ** Further notions used in the statements *)

(** An item is a copy of the catalog product stored under its tag. *)
Definition copy_of (ps : gmap string Product.t) (item : Item.t) : Prop :=
  exists p, ps !! Item.tag_id item = Some p /\
    Item.name item = Product.name p /\
    Item.price item = Product.price p /\
    Item.category item = Product.category p.

(** The tags held by the cart a lookup of [cartId] yields. *)
Definition tags_of (cartId : string) (s : Server) : list string :=
  Item.tag_id <$> Cart.items (cart_of 0 cartId s).

(** The items of a list that do not carry [tag], in order. *)
Definition others (tag : string) (l : list Item.t) : list Item.t :=
  filter (fun item => Item.tag_id item <> tag) l.

(** The cart a reply body carries, if it carries one. *)
Definition body_cart (b : Body) : option Cart.t :=
  match b with
  | ScanBody _ _ _ _ _ cart | CartBody cart | ClearBody _ cart => Some cart
  | ErrorBody _ | ReceiptBody _ | HealthBody _ _ | ProductsBody _ => None
  end.

Fixpoint has_space (s : string) : bool :=
  match s with
  | EmptyString => false
  | String c s' => is_space c || has_space s'
  end.

(** ** Arrays *)

Section arrays.
Context {A : Type} (p : A -> bool).

Lemma findIndex_range l : -1 <= findIndex p l < Z.of_nat (length l).
Proof.
  induction l as [|x l IH]; simpl; [lia|].
  destruct (p x); [lia|].
  destruct (Z.eqb_spec (findIndex p l) (-1)); lia.
Qed.

Lemma findIndex_absent l :
  findIndex p l = -1 <-> Forall (fun x => p x = false) l.
Proof.
  induction l as [|x l IH]; simpl.
  - split; [constructor | reflexivity].
  - destruct (p x) eqn:Hx.
    + split; [lia | intros H; inversion H; congruence].
    + destruct (Z.eqb_spec (findIndex p l) (-1)) as [E|E].
      * split; [|reflexivity]. intros _. constructor; [exact Hx | now apply IH].
      * pose proof (findIndex_range l) as Hr.
        split; [lia|]. intros H; inversion H; subst. tauto.
Qed.

(** A hit splits the array around its first matching element, and
    [splice] deletes exactly that element. *)
Lemma findIndex_present l :
  findIndex p l <> -1 ->
  exists l1 x l2,
    l = l1 ++ x :: l2 /\ p x = true /\ Forall (fun y => p y = false) l1 /\
    findIndex p l = Z.of_nat (length l1) /\
    splice1 (findIndex p l) l = l1 ++ l2.
Proof.
  induction l as [|x l IH]; simpl; [lia|].
  destruct (p x) eqn:Hx.
  - intros _. exists [], x, l. repeat split; auto.
  - destruct (Z.eqb_spec (findIndex p l) (-1)) as [E|E]; [lia|].
    intros _. destruct (IH E) as (l1 & y & l2 & -> & Hy & Hl1 & Hi & Hs).
    exists (x :: l1), y, l2. repeat split; auto.
    + simpl length. lia.
    + unfold splice1 in *. rewrite Hi in *.
      replace (Z.to_nat (Z.of_nat (length l1) + 1)) with (S (length l1)) by lia.
      rewrite Nat2Z.id in Hs. simpl. now rewrite Hs.
Qed.
End arrays.

(** ** The handlers in terms of [cart_of] and [toggle] *)

Lemma getCart_eq now cartId s :
  getCart now cartId s =
  (cart_of now cartId s,
   mkServer (products s) (<[cartId := cart_of now cartId s]> (carts s))).
Proof.
  unfold getCart, cart_of. destruct s as [ps cs]; simpl.
  destruct (cs !! cartId) as [c|] eqn:E; simpl; [|reflexivity].
  now rewrite insert_id.
Qed.

Lemma scan_eq clk tag cart_id s p :
  tag <> "" ->
  products s !! normalize tag = Some p ->
  scan clk (Some tag) cart_id s =
  let cid := default "default" cart_id in
  let ac := toggle (at_scanned clk) (normalize tag) p (cart_of (at_getCart clk) cid s) in
  ((200, ScanBody ac.1 (Product.name p) (Product.price p)
                  (Cart.total ac.2) (length (Cart.items ac.2)) ac.2),
   mkServer (products s) (<[cid := ac.2]> (carts s))).
Proof.
  intros Hne Hp. destruct tag as [|a tag]; [congruence|].
  unfold scan. rewrite Hp, getCart_eq. cbv zeta. unfold toggle.
  set (c := cart_of _ _ _).
  destruct (negb _); simpl; now rewrite insert_insert_eq.
Qed.

Lemma scan_unknown clk tag cart_id s :
  tag <> "" ->
  products s !! normalize tag = None ->
  scan clk (Some tag) cart_id s = (UnknownProduct, s).
Proof.
  intros Hne Hp. destruct tag as [|a tag]; [congruence|].
  unfold scan. now rewrite Hp.
Qed.

Lemma simulate_scan clk tagId s :
  tagId <> "" ->
  simulate clk tagId s = scan clk (Some tagId) (Some "default") s.
Proof. intros Hne. destruct tagId as [|a tagId]; [congruence|]. reflexivity. Qed.

Lemma checkout_eq clk cartId s :
  cart_checkout clk cartId s =
  let c := cart_of (at_getCart clk) cartId s in
  match Cart.items c with
  | [] => (EmptyCart, mkServer (products s) (<[cartId := c]> (carts s)))
  | _ :: _ =>
      ((200, ReceiptBody (Receipt.mk (at_receipt clk) (Cart.items c) (Cart.total c)
                                     (length (Cart.items c)) (at_checkout clk))),
       mkServer (products s) (<[cartId := Cart.mk cartId [] 0 (at_reset clk)]> (carts s)))
  end.
Proof.
  unfold cart_checkout. rewrite getCart_eq. cbv zeta.
  destruct (Cart.items _) eqn:E; simpl; [reflexivity|].
  now rewrite insert_insert_eq.
Qed.

(** ** Sums of prices *)

Lemma sum_prices_app l1 l2 :
  sum_prices (l1 ++ l2) = sum_prices l1 + sum_prices l2.
Proof. induction l1 as [|x l1 IH]; simpl; lia. Qed.

(** ** The cart invariant is kept *)

Lemma fresh_cart_ok ps cartId now : cart_ok ps (Cart.mk cartId [] 0 now).
Proof. split; simpl; [reflexivity | constructor | constructor]. Qed.

Lemma absent_not_elem tag (l : list Item.t) :
  Forall (fun item => bool_decide (Item.tag_id item = tag) = false) l ->
  tag ∉ Item.tag_id <$> l.
Proof.
  intros H Hin. apply list_elem_of_fmap in Hin as (item & -> & Hin).
  rewrite Forall_forall in H. specialize (H _ Hin).
  now apply bool_decide_eq_false in H.
Qed.

Lemma toggle_ok ps now tag p c :
  ps !! tag = Some p -> cart_ok ps c -> cart_ok ps (toggle now tag p c).2.
Proof.
  intros Hp [Ht Hn Hpr]. unfold toggle.
  set (f := fun item => bool_decide (Item.tag_id item = tag)).
  destruct (Z.eqb_spec (findIndex f (Cart.items c)) (-1)) as [E|E]; simpl.
  - apply findIndex_absent in E. split; simpl.
    + rewrite sum_prices_app. simpl. lia.
    + rewrite fmap_app. simpl. apply NoDup_app. split; [exact Hn|]. split.
      * intros x Hx Hx'. apply list_elem_of_singleton in Hx'. subst x.
        now apply (absent_not_elem tag (Cart.items c)).
      * apply NoDup_singleton.
    + apply Forall_app. split; [exact Hpr|]. constructor; [|constructor].
      exists p. simpl. auto.
  - destruct (findIndex_present f _ E) as (l1 & x & l2 & Hl & Hx & _ & _ & Hs).
    rewrite Hs. rewrite Hl in *. clear Hl Hs.
    apply bool_decide_eq_true in Hx.
    apply Forall_app in Hpr as [Hp1 Hp2]. inversion Hp2 as [|? ? [q [Hq Hqp]] Hp2']; subst.
    rewrite Hp in Hq. inversion Hq; subst q. split; simpl.
    + rewrite Ht, !sum_prices_app. simpl. lia.
    + rewrite fmap_app in *. rewrite fmap_cons in Hn.
      apply NoDup_app in Hn as (H1 & H2 & H3). apply NoDup_cons in H3 as [_ H3].
      apply NoDup_app. split; [exact H1|]. split; [|exact H3].
      intros y Hy Hy'. apply (H2 y Hy). now right.
    + apply Forall_app. auto.
Qed.

Lemma cart_of_ok now cartId s : inv s -> cart_ok (products s) (cart_of now cartId s).
Proof.
  intros Hinv. unfold cart_of.
  destruct (carts s !! cartId) as [c|] eqn:E; simpl; [eauto | apply fresh_cart_ok].
Qed.

Lemma inv_insert ps cs cartId c :
  inv (mkServer ps cs) -> cart_ok ps c -> inv (mkServer ps (<[cartId := c]> cs)).
Proof.
  intros Hinv Hc id c'. simpl. rewrite lookup_insert.
  case_decide; [intros [= <-]; exact Hc | apply Hinv].
Qed.

(** ** Every handler keeps the catalog and the invariant *)

Lemma scan_cases clk tag_id cart_id s :
  (scan clk tag_id cart_id s = (InvalidInput, s) /\
   (tag_id = None \/ tag_id = Some "")) \/
  (exists tag, tag_id = Some tag /\ tag <> "" /\
     products s !! normalize tag = None /\
     scan clk tag_id cart_id s = (UnknownProduct, s)) \/
  (exists tag p, tag_id = Some tag /\ tag <> "" /\
     products s !! normalize tag = Some p /\
     (scan clk tag_id cart_id s).2 =
     mkServer (products s)
       (<[default "default" cart_id :=
            (toggle (at_scanned clk) (normalize tag) p
               (cart_of (at_getCart clk) (default "default" cart_id) s)).2]> (carts s)) /\
     (scan clk tag_id cart_id s).1.1 = 200).
Proof.
  destruct tag_id as [tag|]; [|left; auto].
  destruct (decide (tag = "")) as [->|Hne]; [left; auto|].
  right. destruct (products s !! normalize tag) as [p|] eqn:Hp.
  - right. exists tag, p. rewrite (scan_eq _ _ _ _ p) by assumption. auto.
  - left. exists tag. rewrite scan_unknown by assumption. auto.
Qed.

Lemma handle_products clk r s : products (handle clk r s).2 = products s.
Proof.
  destruct r as [tag_id cart_id|cartId|cartId|cartId|tagId| |]; simpl;
    try reflexivity.
  - destruct (scan_cases clk tag_id cart_id s)
      as [[-> _]|[(tag & _ & _ & _ & ->)|(tag & p & _ & _ & _ & -> & _)]];
      reflexivity.
  - unfold cart_get. now rewrite getCart_eq.
  - rewrite checkout_eq. cbv zeta. now destruct (Cart.items _).
  - destruct (decide (tagId = "")) as [->|Hne].
    + unfold simulate. destruct (products s !! normalize ""); [|reflexivity].
      rewrite getCart_eq. now destruct (negb _).
    + rewrite simulate_scan by assumption.
      destruct (scan_cases clk (Some tagId) (Some "default") s)
        as [[-> _]|[(tag & _ & _ & _ & ->)|(tag & p & _ & _ & _ & -> & _)]];
        reflexivity.
Qed.

Lemma scan_inv clk tag_id cart_id s : inv s -> inv (scan clk tag_id cart_id s).2.
Proof.
  intros Hinv.
  destruct (scan_cases clk tag_id cart_id s)
    as [[-> _]|[(tag & _ & _ & _ & ->)|(tag & p & _ & _ & Hp & -> & _)]];
    try exact Hinv.
  destruct s as [ps cs]. apply inv_insert; [exact Hinv|].
  apply toggle_ok; [exact Hp|]. now apply (cart_of_ok _ _ (mkServer ps cs)).
Qed.

Lemma handle_inv clk r s : inv s -> inv (handle clk r s).2.
Proof.
  intros Hinv.
  destruct r as [tag_id cart_id|cartId|cartId|cartId|tagId| |]; simpl;
    try exact Hinv.
  - now apply scan_inv.
  - unfold cart_get. rewrite getCart_eq. destruct s as [ps cs]. simpl.
    apply inv_insert; [exact Hinv|]. now apply (cart_of_ok _ _ (mkServer ps cs)).
  - destruct s as [ps cs]. apply inv_insert; [exact Hinv | apply fresh_cart_ok].
  - rewrite checkout_eq. cbv zeta. destruct s as [ps cs].
    destruct (Cart.items _) eqn:E; simpl.
    + apply inv_insert; [exact Hinv|]. now apply (cart_of_ok _ _ (mkServer ps cs)).
    + apply inv_insert; [exact Hinv | apply fresh_cart_ok].
  - destruct (decide (tagId = "")) as [->|Hne].
    + unfold simulate. destruct (products s !! normalize "") as [p|] eqn:Hp;
        [|exact Hinv].
      rewrite getCart_eq. fold (toggle (at_scanned clk) (normalize "") p
                                  (cart_of (at_getCart clk) "default" s)).
      destruct (toggle _ _ _ _) as [a c] eqn:Et. simpl.
      rewrite insert_insert_eq. destruct s as [ps cs]. apply inv_insert; [exact Hinv|].
      replace c with (toggle (at_scanned clk) (normalize "") p
                        (cart_of (at_getCart clk) "default" (mkServer ps cs))).2
        by now rewrite Et.
      apply toggle_ok; [exact Hp|]. now apply (cart_of_ok _ _ (mkServer ps cs)).
    + rewrite simulate_scan by assumption. now apply scan_inv.
Qed.

Lemma reachable_inv s : reachable s -> inv s.
Proof.
  induction 1 as [|clk r s _ IH]; [|now apply handle_inv].
  intros cartId c. simpl. now rewrite lookup_empty.
Qed.

Lemma reachable_products s : reachable s -> products s = catalog.
Proof.
  induction 1 as [|clk r s _ IH]; [reflexivity|]. now rewrite handle_products.
Qed.

Lemma reachable_run rs s : reachable s -> reachable (run rs s).
Proof.
  revert s. induction rs as [|[clk r] rs IH]; intros s Hs; simpl; [exact Hs|].
  apply IH. now constructor.
Qed.

(** ** Totals stay small *)

(** The totals of reachable carts are bounded by the sum of all catalog
    prices, far below 2^53: the additions and subtractions the handlers
    perform on JavaScript numbers are exact integer operations. *)

Lemma sum_price_of_submseteq (f : string -> Z) (l k : list string) :
  (forall x, 0 <= f x) -> l ⊆+ k ->
  foldr (fun t acc => f t + acc) 0 l <= foldr (fun t acc => f t + acc) 0 k.
Proof.
  intros Hf. induction 1 as [|x l k _ IH|x y l|x l k _ IH|l k m _ IH1 _ IH2]; simpl.
  - lia.
  - lia.
  - lia.
  - specialize (Hf x). lia.
  - lia.
Qed.

Lemma sum_price_of_nonneg (f : string -> Z) (l : list string) :
  (forall x, 0 <= f x) -> 0 <= foldr (fun t acc => f t + acc) 0 l.
Proof. intros Hf. induction l as [|x l IH]; simpl; [lia|]. specialize (Hf x). lia. Qed.

Lemma sum_prices_by_tag ps (l : list Item.t) :
  Forall (priced ps) l ->
  sum_prices l = foldr (fun t acc => price_of ps t + acc) 0 (Item.tag_id <$> l).
Proof.
  induction 1 as [|x l (p & Hp & Hx) _ IH]; [reflexivity|].
  rewrite fmap_cons. cbn [foldr sum_prices]. fold (sum_prices l).
  rewrite <- IH, Hx. unfold price_of. now rewrite Hp.
Qed.

Lemma catalog_prices_nonneg t : 0 <= price_of catalog t.
Proof.
  unfold price_of. destruct (catalog !! t) as [p|] eqn:E; simpl; [|lia].
  apply elem_of_map_to_list in E.
  assert (H : Forall (fun kp => 0 <= Product.price kp.2) (map_to_list catalog))
    by (vm_compute; repeat constructor; discriminate).
  rewrite Forall_forall in H. exact (H _ E).
Qed.

Lemma reachable_total_bounds s cartId c :
  reachable s -> carts s !! cartId = Some c -> 0 <= Cart.total c <= 378.
Proof.
  intros Hr Hc. destruct (reachable_inv s Hr cartId c Hc) as [Ht Hn Hp].
  rewrite (reachable_products s Hr) in Hp.
  rewrite Ht, (sum_prices_by_tag catalog) by assumption. split.
  - apply sum_price_of_nonneg, catalog_prices_nonneg.
  - change 378 with (foldr (fun t acc => price_of catalog t + acc) 0 catalog_keys).
    apply sum_price_of_submseteq; [apply catalog_prices_nonneg|].
    apply NoDup_submseteq; [exact Hn|].
    intros t Ht'. apply list_elem_of_fmap in Ht' as (item & -> & Hin).
    rewrite Forall_forall in Hp. destruct (Hp _ Hin) as (p & Hp' & _).
    unfold catalog_keys. apply list_elem_of_fmap. exists (Item.tag_id item, p).
    split; [reflexivity|]. now apply elem_of_map_to_list.
Qed.

(** ** Toggling twice *)

Lemma toggle_absent now tag p c :
  findIndex (fun item => bool_decide (Item.tag_id item = tag)) (Cart.items c) = (-1) ->
  toggle now tag p c =
  (added,
   Cart.mk (Cart.id c)
           (Cart.items c ++
              [Item.mk tag (Product.name p) (Product.price p) (Product.category p) now])
           (Cart.total c + Product.price p) (Cart.createdAt c)).
Proof. intros E. unfold toggle. now rewrite E. Qed.

Lemma toggle_present now tag p c :
  findIndex (fun item => bool_decide (Item.tag_id item = tag)) (Cart.items c) <> (-1) ->
  exists l1 x l2,
    Cart.items c = l1 ++ x :: l2 /\ Item.tag_id x = tag /\
    Forall (fun y => Item.tag_id y <> tag) l1 /\
    toggle now tag p c =
    (removed,
     Cart.mk (Cart.id c) (l1 ++ l2) (Cart.total c - Product.price p) (Cart.createdAt c)).
Proof.
  intros E. destruct (findIndex_present _ _ E) as (l1 & x & l2 & Hl & Hx & H1 & _ & Hs).
  exists l1, x, l2. repeat split; auto.
  - now apply bool_decide_eq_true in Hx.
  - eapply Forall_impl; [exact H1|]. intros y Hy. now apply bool_decide_eq_false in Hy.
  - unfold toggle. rewrite Hs. now apply Z.eqb_neq in E as ->.
Qed.

Lemma toggle_twice n1 n2 tag p c :
  NoDup (Item.tag_id <$> Cart.items c) ->
  let c1 := (toggle n1 tag p c).2 in
  let c2 := (toggle n2 tag p c1).2 in
  Cart.total c2 = Cart.total c /\
  length (Cart.items c2) = length (Cart.items c).
Proof.
  intros Hn. cbv zeta.
  set (f := fun item => bool_decide (Item.tag_id item = tag)).
  destruct (decide (findIndex f (Cart.items c) = -1)) as [E|E].
  - (* added, then removed *)
    rewrite (toggle_absent n1 _ _ _ E). cbn [snd].
    set (c1 := Cart.mk _ _ _ _).
    destruct (decide (findIndex f (Cart.items c1) = -1)) as [E'|E'].
    + apply findIndex_absent, Forall_app in E' as [_ E'].
      inversion E' as [|? ? Hnew _]; subst. unfold f in Hnew. cbn in Hnew.
      now rewrite bool_decide_eq_true_2 in Hnew.
    + destruct (toggle_present n2 tag p c1 E') as (l1 & x & l2 & Hl & _ & _ & ->).
      cbn. split; [lia|].
      apply (f_equal length) in Hl. cbn in Hl. rewrite !length_app in *. cbn in Hl. lia.
  - (* removed, then added *)
    destruct (toggle_present n1 tag p c E) as (l1 & x & l2 & Hl & Hx & _ & ->).
    cbn [snd]. set (c1 := Cart.mk _ _ _ _).
    assert (Habs : findIndex f (Cart.items c1) = -1).
    { apply findIndex_absent. cbn. rewrite Hl, fmap_app, fmap_cons in Hn.
      apply NoDup_app in Hn as (_ & H2 & H3). apply NoDup_cons in H3 as [H3 _].
      apply Forall_forall. intros y Hy. apply bool_decide_eq_false. intros Hy'.
      apply elem_of_app in Hy as [Hy|Hy].
      - apply (H2 tag); [rewrite <- Hy'; now apply list_elem_of_fmap_2|].
        rewrite <- Hx. now left.
      - apply H3. rewrite Hx, <- Hy'. now apply list_elem_of_fmap_2. }
    rewrite (toggle_absent n2 _ _ _ Habs). cbn. split; [lia|].
    rewrite Hl, !length_app. cbn. lia.
Qed.

(** ** Frame: a handler touches the entry of its own cart id only *)

Lemma scan_frame clk tag_id cart_id s other :
  other <> default "default" cart_id ->
  carts (scan clk tag_id cart_id s).2 !! other = carts s !! other.
Proof.
  intros Hne.
  destruct (scan_cases clk tag_id cart_id s)
    as [[-> _]|[(tag & _ & _ & _ & ->)|(tag & p & _ & _ & _ & -> & _)]];
    try reflexivity.
  simpl. now rewrite lookup_insert_ne.
Qed.

Lemma handle_frame clk r s other :
  target r <> Some other ->
  carts (handle clk r s).2 !! other = carts s !! other.
Proof.
  intros Hne.
  destruct r as [tag_id cart_id|cartId|cartId|cartId|tagId| |]; simpl in *;
    try reflexivity.
  - apply scan_frame. congruence.
  - unfold cart_get. rewrite getCart_eq. simpl.
    rewrite lookup_insert_ne; [reflexivity | congruence].
  - rewrite lookup_insert_ne; [reflexivity | congruence].
  - rewrite checkout_eq. cbv zeta.
    destruct (Cart.items _); simpl; (rewrite lookup_insert_ne; [reflexivity | congruence]).
  - unfold simulate. destruct (products s !! normalize tagId); [|reflexivity].
    rewrite getCart_eq. destruct (negb _); simpl;
      rewrite insert_insert_eq; (rewrite lookup_insert_ne; [reflexivity | congruence]).
Qed.

(** ** Normalization *)




Lemma upper_char_not_lower c : is_lower (upper_char c) = false.
Proof.
  unfold upper_char. destruct (is_lower c) eqn:E; [|exact E].
  destruct c as [[] [] [] [] [] [] [] []]; vm_compute in E |- *; congruence.
Qed.

Lemma normalize_no_lowercase tag : has_lower (normalize tag) = false.
Proof.
  unfold normalize. induction tag as [|c tag IH]; [reflexivity|].
  cbn [toUpperCase remove_whitespace].
  destruct (is_space (upper_char c)); [exact IH|].
  cbn [has_lower]. now rewrite upper_char_not_lower, IH.
Qed.

(** A normalized tag never names a member of [Object.prototype], so the
    catalog lookup only ever sees the properties of the literal. *)
Lemma normalize_not_inherited tag : normalize tag ∉ object_prototype_names.
Proof.
  intros Hin. pose proof (normalize_no_lowercase tag) as Hl.
  unfold object_prototype_names in Hin.
  repeat (apply elem_of_cons in Hin as [Hin|Hin];
          [rewrite Hin in Hl; vm_compute in Hl; discriminate|]).
  now apply elem_of_nil in Hin.
Qed.

Lemma is_space_upper c : is_space (upper_char c) = is_space c.
Proof. destruct c as [[] [] [] [] [] [] [] []]; reflexivity. Qed.

(** The normalized form is empty exactly for whitespace-only input. *)
Lemma normalize_empty tag :
  normalize tag = "" <->
  Forall (fun c => is_space c = true) (list_ascii_of_string tag).
Proof.
  unfold normalize. induction tag as [|c tag IH]; cbn.
  - split; [constructor | reflexivity].
  - rewrite is_space_upper. destruct (is_space c) eqn:E.
    + rewrite IH. split; [now constructor | now inversion 1].
    + split; [discriminate | inversion 1; congruence].
Qed.

Lemma cart_of_total now cartId s :
  Cart.total (cart_of now cartId s) = total_of cartId s.
Proof. unfold total_of, cart_of. now destruct (carts s !! cartId). Qed.

Lemma cart_of_items now cartId s :
  Cart.items (cart_of now cartId s) = Cart.items (cart_of 0 cartId s).
Proof. unfold cart_of. now destruct (carts s !! cartId). Qed.

Lemma cart_of_insert now cartId c ps cs :
  cart_of now cartId (mkServer ps (<[cartId := c]> cs)) = c.
Proof. unfold cart_of. simpl. now rewrite lookup_insert_eq. Qed.

Lemma demo_reachable : reachable demo.
Proof. apply reachable_run, reachable_initial. Qed.

Lemma demo_lookup : carts demo !! "c1" = Some demo_cart.
Proof. vm_compute. reflexivity. Qed.

(** ** The worked example of the specification *)

Example scan_milk_added :
  (handle clock0 (Scan (Some "a1b2c3d4") (Some "c1")) initial).1 =
  (200, ScanBody added "Milk (1L)" 40 40 1
          (Cart.mk "c1" [Item.mk "A1B2C3D4" "Milk (1L)" 40 "Dairy" 0] 40 0)).
Proof. vm_compute. reflexivity. Qed.

Example scan_milk_removed :
  (handle clock0 (Scan (Some "a1b2c3d4") (Some "c1"))
     (handle clock0 (Scan (Some "a1b2c3d4") (Some "c1")) initial).2).1 =
  (200, ScanBody removed "Milk (1L)" 40 0 0 (Cart.mk "c1" [] 0 0)).
Proof. vm_compute. reflexivity. Qed.

(** The scan handler rejects the empty tag before the catalog lookup and
    the simulate handler has no such guard; the two differ on the empty
    string only, which no request path binds to [:tagId]. *)
Lemma simulate_empty_tag s clk :
  products s !! "" = None ->
  simulate clk "" s = (UnknownProduct, s) /\
  scan clk (Some "") (Some "default") s = (InvalidInput, s).
Proof.
  intros Hp. split; [|reflexivity].
  unfold simulate. change (normalize "") with "". now rewrite Hp.
Qed.

(** ** The properties of the specification *)

(** C1: in every state reachable from the initial, empty cart store by
    serving requests (scan, cart retrieval, clear, checkout, and the
    other endpoints), every stored cart has a [total] equal to the sum of
    the prices of its items.  Reachability covers the state after each
    single request of a run. *)
Theorem total_is_sum_of_prices s cartId c :
  reachable s ->
  carts s !! cartId = Some c ->
  Cart.total c = sum_prices (Cart.items c).
Proof. intros Hr Hc. exact (ok_total _ _ (reachable_inv s Hr cartId c Hc)). Qed.

Lemma total_is_sum_of_prices_witness :
  reachable demo /\ carts demo !! "c1" = Some demo_cart /\
  Cart.total demo_cart = sum_prices (Cart.items demo_cart).
Proof.
  split; [exact demo_reachable|]. split; [exact demo_lookup|].
  exact (total_is_sum_of_prices demo "c1" demo_cart demo_reachable demo_lookup).
Defined.

(** C2: checkout of a cart that holds at least one item succeeds with a
    receipt whose items, total and item count are those of the cart
    before the request; afterwards the store maps the cart id to a cart
    with no items and total 0. *)
Theorem checkout_nonempty clk cartId s c :
  carts s !! cartId = Some c ->
  Cart.items c <> [] ->
  exists receipt s',
    handle clk (Checkout cartId) s = ((200, ReceiptBody receipt), s') /\
    Receipt.items receipt = Cart.items c /\
    Receipt.total receipt = Cart.total c /\
    Receipt.itemCount receipt = length (Cart.items c) /\
    exists c', carts s' !! cartId = Some c' /\ Cart.items c' = [] /\ Cart.total c' = 0.
Proof.
  intros Hc Hne. simpl. rewrite checkout_eq. cbv zeta.
  unfold cart_of. rewrite Hc. simpl.
  destruct (Cart.items c) as [|x l] eqn:E; [congruence|].
  eexists _, _. split; [reflexivity|]. simpl. repeat split.
  eexists. rewrite lookup_insert_eq. split; [reflexivity|]. split; reflexivity.
Qed.

Lemma checkout_nonempty_witness :
  carts demo !! "c1" = Some demo_cart /\ Cart.items demo_cart <> [] /\
  exists receipt s',
    handle clock0 (Checkout "c1") demo = ((200, ReceiptBody receipt), s') /\
    Receipt.items receipt = Cart.items demo_cart /\
    Receipt.total receipt = Cart.total demo_cart /\
    Receipt.itemCount receipt = length (Cart.items demo_cart) /\
    exists c', carts s' !! "c1" = Some c' /\ Cart.items c' = [] /\ Cart.total c' = 0.
Proof.
  assert (Hne : Cart.items demo_cart <> []) by (simpl; discriminate).
  split; [exact demo_lookup|]. split; [exact Hne|].
  exact (checkout_nonempty clock0 "c1" demo demo_cart demo_lookup Hne).
Defined.

(** C3: in every reachable state, for every tag whose normalized form is
    a catalog key and every cart id (missing ids address "default"),
    two scans in a row with that tag and cart id leave the cart's total
    and item count at their values before the first scan; a cart id
    without an entry counts as the empty cart that the first lookup
    creates. *)
Theorem scan_twice_restores clk1 clk2 tag cart_id s :
  reachable s ->
  is_Some (catalog !! normalize tag) ->
  let cid := default "default" cart_id in
  let r1 := handle clk1 (Scan (Some tag) cart_id) s in
  let r2 := handle clk2 (Scan (Some tag) cart_id) r1.2 in
  total_of cid r2.2 = total_of cid s /\
  count_of cid r2.2 = count_of cid s.
Proof.
  intros Hr [p Hp]. cbv zeta. unfold handle.
  assert (Hne : tag <> "") by (intros ->; vm_compute in Hp; discriminate).
  rewrite <- (reachable_products s Hr) in Hp.
  rewrite (scan_eq clk1 tag cart_id s p Hne Hp). cbv zeta. cbn [fst snd].
  set (cid := default "default" cart_id).
  set (c0 := cart_of (at_getCart clk1) cid s).
  set (c1 := (toggle (at_scanned clk1) (normalize tag) p c0).2).
  set (s1 := mkServer _ _).
  assert (Hp1 : products s1 !! normalize tag = Some p) by exact Hp.
  rewrite (scan_eq clk2 tag cart_id s1 p Hne Hp1). cbv zeta. cbn [fst snd].
  fold cid. subst s1. rewrite !cart_of_insert.
  assert (Hn : NoDup (Item.tag_id <$> Cart.items c0)).
  { apply (ok_nodup (products s)). apply cart_of_ok. now apply reachable_inv. }
  destruct (toggle_twice (at_scanned clk1) (at_scanned clk2) (normalize tag) p c0 Hn)
    as [Ht Hl]. fold c1 in Ht, Hl.
  unfold count_of. rewrite <- !(cart_of_total 0), !cart_of_insert.
  rewrite Ht, Hl. unfold c0. now rewrite !cart_of_total, cart_of_items.
Qed.

Lemma scan_twice_restores_witness :
  reachable demo /\ is_Some (catalog !! normalize "a1b2c3d4") /\
  total_of "c1"
    (handle clock0 (Scan (Some "a1b2c3d4") (Some "c1"))
       (handle clock0 (Scan (Some "a1b2c3d4") (Some "c1")) demo).2).2 =
  total_of "c1" demo /\
  count_of "c1"
    (handle clock0 (Scan (Some "a1b2c3d4") (Some "c1"))
       (handle clock0 (Scan (Some "a1b2c3d4") (Some "c1")) demo).2).2 =
  count_of "c1" demo.
Proof.
  assert (Hc : is_Some (catalog !! normalize "a1b2c3d4")) by (vm_compute; eauto).
  split; [exact demo_reachable|]. split; [exact Hc|].
  exact (scan_twice_restores clock0 clock0 "a1b2c3d4" (Some "c1") demo demo_reachable Hc).
Defined.

(** C4 as stated fails: on the initial store the cart id "c1" has no
    entry, its cart is the empty one, checkout answers EmptyCart, and the
    store has gained an entry for "c1". *)
Lemma checkout_empty_creates_entry :
  carts initial !! "c1" = None /\
  Cart.items (cart_of 0 "c1" initial) = [] /\
  (handle clock0 (Checkout "c1") initial).1 = EmptyCart /\
  carts (handle clock0 (Checkout "c1") initial).2 !! "c1" = Some (Cart.mk "c1" [] 0 0) /\
  (handle clock0 (Checkout "c1") initial).2 <> initial.
Proof.
  split; [reflexivity|]. split; [reflexivity|]. split; [reflexivity|].
  split; [vm_compute; reflexivity|].
  intros H. apply (f_equal (fun s => carts s !! "c1")) in H.
  vm_compute in H. discriminate.
Qed.

(** C5, as the code has it: for every non-empty tag whose normalized form
    is not a catalog key, scan fails with UnknownProduct (status 404) and
    returns the state as it received it: no cart is modified or
    created. *)
Theorem scan_unknown_tag clk tag cart_id s :
  tag <> "" ->
  products s !! normalize tag = None ->
  handle clk (Scan (Some tag) cart_id) s = ((404, ErrorBody "Unknown product"), s).
Proof. intros Hne Hp. simpl. now apply scan_unknown. Qed.

Lemma scan_unknown_tag_witness :
  "ZZZZZZZZ" <> "" /\ products demo !! normalize "ZZZZZZZZ" = None /\
  handle clock0 (Scan (Some "ZZZZZZZZ") (Some "c1")) demo =
  ((404, ErrorBody "Unknown product"), demo).
Proof.
  assert (Hne : "ZZZZZZZZ" <> "") by discriminate.
  assert (Hp : products demo !! normalize "ZZZZZZZZ" = None) by (vm_compute; reflexivity).
  split; [exact Hne|]. split; [exact Hp|].
  exact (scan_unknown_tag clock0 "ZZZZZZZZ" (Some "c1") demo Hne Hp).
Defined.

(** C5 as stated fails at the empty tag: its normalized form is the empty
    string, which is not a catalog key, yet scan answers InvalidInput
    (status 400), not UnknownProduct. *)
Lemma scan_empty_tag_not_unknown :
  products initial !! normalize "" = None /\
  (handle clock0 (Scan (Some "") (Some "c1")) initial).1 = (400, ErrorBody "tag_id is required") /\
  (handle clock0 (Scan (Some "") (Some "c1")) initial).1 <> UnknownProduct.
Proof.
  split; [vm_compute; reflexivity|]. split; [reflexivity|]. discriminate.
Qed.




(** C7: for every tag the route can bind (a path parameter is never the
    empty string) and every state, the simulate handler gives the same
    response and the same next state as the scan handler called with that
    tag and cart id "default", whether the id is sent or left to its
    default; an unknown tag gives status 404 and the state unchanged. *)
Theorem simulate_is_scan_default clk tagId s :
  tagId <> "" ->
  handle clk (Simulate tagId) s = handle clk (Scan (Some tagId) (Some "default")) s /\
  handle clk (Simulate tagId) s = handle clk (Scan (Some tagId) None) s /\
  (products s !! normalize tagId = None ->
   handle clk (Simulate tagId) s = ((404, ErrorBody "Unknown product"), s)).
Proof.
  intros Hne. unfold handle. rewrite simulate_scan by assumption.
  split; [reflexivity|]. split; [reflexivity|].
  intros Hp. now apply scan_unknown.
Qed.

Lemma simulate_is_scan_default_witness :
  "a1b2c3d4" <> "" /\
  handle clock0 (Simulate "a1b2c3d4") demo =
  handle clock0 (Scan (Some "a1b2c3d4") (Some "default")) demo.
Proof.
  assert (Hne : "a1b2c3d4" <> "") by discriminate.
  split; [exact Hne|].
  exact (proj1 (simulate_is_scan_default clock0 "a1b2c3d4" demo Hne)).
Defined.

(** C9: in every reachable state, the items of a stored cart carry
    pairwise distinct tag identifiers: a normalized tag occurs in at most
    one item. *)
Theorem tags_unique s cartId c :
  reachable s ->
  carts s !! cartId = Some c ->
  NoDup (Item.tag_id <$> Cart.items c).
Proof. intros Hr Hc. exact (ok_nodup _ _ (reachable_inv s Hr cartId c Hc)). Qed.

Lemma tags_unique_witness :
  reachable demo /\ carts demo !! "c1" = Some demo_cart /\
  NoDup (Item.tag_id <$> Cart.items demo_cart).
Proof.
  split; [exact demo_reachable|]. split; [exact demo_lookup|].
  exact (tags_unique demo "c1" demo_cart demo_reachable demo_lookup).
Defined.

(** ** The shape of a step *)

(** A request either returns the state it received or overwrites the
    entry of the cart id it addresses, with the looked-up cart, with an
    empty cart, or with the looked-up cart toggled on a catalog tag. *)
Lemma handle_shape clk r s :
  (handle clk r s).2 = s \/
  exists cartId c,
    target r = Some cartId /\
    (handle clk r s).2 = mkServer (products s) (<[cartId := c]> (carts s)) /\
    (c = cart_of (at_getCart clk) cartId s \/
     (exists now, c = Cart.mk cartId [] 0 now) \/
     (exists tag p, products s !! tag = Some p /\
        c = (toggle (at_scanned clk) tag p (cart_of (at_getCart clk) cartId s)).2)).
Proof.
  assert (Hscan : forall tag_id cart_id,
    (scan clk tag_id cart_id s).2 = s \/
    exists c,
      (scan clk tag_id cart_id s).2 =
        mkServer (products s) (<[default "default" cart_id := c]> (carts s)) /\
      exists tag p, products s !! tag = Some p /\
        c = (toggle (at_scanned clk) tag p
               (cart_of (at_getCart clk) (default "default" cart_id) s)).2).
  { intros tag_id cart_id.
    destruct (scan_cases clk tag_id cart_id s)
      as [[-> _]|[(tag & _ & _ & _ & ->)|(tag & p & _ & _ & Hp & -> & _)]];
      [now left | now left | right].
    eexists. split; [reflexivity|]. exists (normalize tag), p. auto. }
  destruct r as [tag_id cart_id|cartId|cartId|cartId|tagId| |]; simpl target;
    unfold handle; try (now left).
  - destruct (Hscan tag_id cart_id) as [H|(c & H & H')]; [now left|right].
    exists (default "default" cart_id), c. auto.
  - right. exists cartId, (cart_of (at_getCart clk) cartId s).
    unfold cart_get. rewrite getCart_eq. auto.
  - right. exists cartId, (Cart.mk cartId [] 0 (at_cleared clk)).
    split; [reflexivity|]. split; [reflexivity|]. right. left. eauto.
  - right. rewrite checkout_eq. cbv zeta. destruct (Cart.items _).
    + exists cartId, (cart_of (at_getCart clk) cartId s). auto.
    + exists cartId, (Cart.mk cartId [] 0 (at_reset clk)).
      split; [reflexivity|]. split; [reflexivity|]. right. left. eauto.
  - destruct (decide (tagId = "")) as [->|Hne].
    + unfold simulate. destruct (products s !! normalize "") as [p|] eqn:Hp;
        [right|now left].
      rewrite getCart_eq.
      exists "default", (toggle (at_scanned clk) (normalize "") p
                           (cart_of (at_getCart clk) "default" s)).2.
      split; [reflexivity|]. split; [|right; right; eauto].
      unfold toggle. destruct (negb _); simpl; now rewrite insert_insert_eq.
    + rewrite simulate_scan by assumption.
      destruct (Hscan (Some tagId) (Some "default")) as [H|(c & H & H')];
        [now left|right].
      exists "default", c. auto.
Qed.

(** A property of carts that holds of empty carts and is kept by the
    toggle holds of every stored cart of every reachable state. *)
Lemma reachable_carts_ind (P : string -> Cart.t -> Prop) :
  (forall cartId now, P cartId (Cart.mk cartId [] 0 now)) ->
  (forall cartId now tag p c,
     catalog !! tag = Some p -> P cartId c -> P cartId (toggle now tag p c).2) ->
  forall s, reachable s ->
  forall cartId c, carts s !! cartId = Some c -> P cartId c.
Proof.
  intros Hfresh Htoggle s Hr.
  induction Hr as [|clk r s Hr IH]; intros cartId c.
  - simpl. now rewrite lookup_empty.
  - assert (Hof : forall now id, P id (cart_of now id s)).
    { intros now id. unfold cart_of.
      destruct (carts s !! id) as [c0|] eqn:E; simpl; [eauto | apply Hfresh]. }
    destruct (handle_shape clk r s) as [->|(id & c' & _ & -> & Hc')]; [apply IH|].
    simpl. rewrite lookup_insert. case_decide as Hid; [|apply IH].
    intros [= <-]. subst id.
    destruct Hc' as [->|[(now & ->)|(tag & p & Hp & ->)]].
    + apply Hof.
    + apply Hfresh.
    + apply Htoggle; [|apply Hof]. now rewrite <- (reachable_products s Hr).
Qed.

Lemma toggle_id now tag p c : Cart.id (toggle now tag p c).2 = Cart.id c.
Proof. unfold toggle. now destruct (negb _). Qed.

Lemma toggle_createdAt now tag p c :
  Cart.createdAt (toggle now tag p c).2 = Cart.createdAt c.
Proof. unfold toggle. now destruct (negb _). Qed.

(** The toggle, case by case on whether the cart holds the tag. *)
Lemma toggle_cases now tag p c :
  (findIndex (fun item => bool_decide (Item.tag_id item = tag)) (Cart.items c) = -1 /\
   (tag ∉ Item.tag_id <$> Cart.items c) /\
   toggle now tag p c =
   (added,
    Cart.mk (Cart.id c)
            (Cart.items c ++
               [Item.mk tag (Product.name p) (Product.price p) (Product.category p) now])
            (Cart.total c + Product.price p) (Cart.createdAt c))) \/
  (exists l1 x l2,
     Cart.items c = l1 ++ x :: l2 /\ Item.tag_id x = tag /\
     (tag ∉ Item.tag_id <$> l1) /\
     toggle now tag p c =
     (removed,
      Cart.mk (Cart.id c) (l1 ++ l2) (Cart.total c - Product.price p)
              (Cart.createdAt c))).
Proof.
  set (f := fun item => bool_decide (Item.tag_id item = tag)).
  destruct (decide (findIndex f (Cart.items c) = -1)) as [E|E].
  - left. split; [exact E|]. split; [|now apply toggle_absent].
    apply absent_not_elem. now apply findIndex_absent.
  - right. destruct (toggle_present now tag p c E) as (l1 & x & l2 & Hl & Hx & H1 & Ht).
    exists l1, x, l2. repeat split; auto.
    intros Hin. apply list_elem_of_fmap in Hin as (y & Hy & Hin).
    rewrite Forall_forall in H1. now apply (H1 y Hin).
Qed.

Lemma cart_of_insert_ne now cartId other c ps cs :
  cartId <> other ->
  cart_of now other (mkServer ps (<[cartId := c]> cs)) = cart_of now other (mkServer ps cs).
Proof. intros Hne. unfold cart_of. simpl. now rewrite lookup_insert_ne. Qed.

Lemma run_app rs1 rs2 s : run (rs1 ++ rs2) s = run rs2 (run rs1 s).
Proof. revert s. induction rs1 as [|[clk r] rs1 IH]; intros s; simpl; auto. Qed.

Lemma reachable_cart_id s cartId c :
  reachable s -> carts s !! cartId = Some c -> Cart.id c = cartId.
Proof.
  intros Hr. revert cartId c.
  apply (reachable_carts_ind (fun cartId c => Cart.id c = cartId)); [| |exact Hr].
  - reflexivity.
  - intros cartId now tag p c _ Hc. now rewrite toggle_id.
Qed.

(** ** Further properties of the handlers *)

(** X2: in every reachable state, every item of a stored cart is a copy
    of a catalog product: its tag is a catalog key and its name, price
    and category are those of the product under that key. *)
Theorem items_copy_catalog s cartId c :
  reachable s ->
  carts s !! cartId = Some c ->
  Forall (copy_of catalog) (Cart.items c).
Proof.
  intros Hr. revert cartId c.
  apply (reachable_carts_ind (fun _ c => Forall (copy_of catalog) (Cart.items c)));
    [| |exact Hr].
  - constructor.
  - intros cartId now tag p c Hp Hc.
    destruct (toggle_cases now tag p c) as [(_ & _ & ->)|(l1 & x & l2 & Hl & _ & _ & ->)];
      simpl.
    + apply Forall_app. split; [exact Hc|]. constructor; [|constructor].
      exists p. simpl. auto.
    + rewrite Hl in Hc. apply Forall_app in Hc as [H1 H2].
      apply Forall_cons in H2 as [_ H2]. apply Forall_app. auto.
Qed.

Lemma items_copy_catalog_witness :
  reachable demo /\ carts demo !! "c1" = Some demo_cart /\
  Forall (copy_of catalog) (Cart.items demo_cart).
Proof.
  split; [exact demo_reachable|]. split; [exact demo_lookup|].
  exact (items_copy_catalog demo "c1" demo_cart demo_reachable demo_lookup).
Defined.

(** X3: in every reachable state, a stored cart holds at most as many
    items as the catalog has products (8), and its total lies between 0
    and the sum of all catalog prices (378). *)
Theorem cart_size_bounds s cartId c :
  reachable s ->
  carts s !! cartId = Some c ->
  (length (Cart.items c) <= 8)%nat /\ 0 <= Cart.total c <= 378.
Proof.
  intros Hr Hc. split; [|now apply (reachable_total_bounds s cartId)].
  destruct (reachable_inv s Hr cartId c Hc) as [_ Hn Hp].
  rewrite (reachable_products s Hr) in Hp.
  rewrite <- (length_fmap Item.tag_id).
  change 8%nat with (length catalog_keys).
  apply submseteq_length, NoDup_submseteq; [exact Hn|].
  intros t Ht. apply list_elem_of_fmap in Ht as (item & -> & Hin).
  rewrite Forall_forall in Hp. destruct (Hp _ Hin) as (p & Hp' & _).
  unfold catalog_keys. apply list_elem_of_fmap. exists (Item.tag_id item, p).
  split; [reflexivity|]. now apply elem_of_map_to_list.
Qed.

Lemma cart_size_bounds_witness :
  reachable demo /\ carts demo !! "c1" = Some demo_cart /\
  (length (Cart.items demo_cart) <= 8)%nat /\ 0 <= Cart.total demo_cart <= 378.
Proof.
  split; [exact demo_reachable|]. split; [exact demo_lookup|].
  exact (cart_size_bounds demo "c1" demo_cart demo_reachable demo_lookup).
Defined.

(** X4: no request deletes a cart: a cart id that has an entry in the
    store keeps one through any sequence of requests. *)
Theorem carts_never_deleted rs s cartId :
  is_Some (carts s !! cartId) ->
  is_Some (carts (run rs s) !! cartId).
Proof.
  revert s. induction rs as [|[clk r] rs IH]; intros s Hs; simpl; [exact Hs|].
  apply IH. destruct (handle_shape clk r s) as [->|(id & c & _ & -> & _)];
    [exact Hs|].
  simpl. rewrite lookup_insert. case_decide; eauto.
Qed.

Lemma carts_never_deleted_witness :
  is_Some (carts demo !! "c1") /\
  is_Some (carts (run [(clock0, Checkout "c1"); (clock0, Clear "c2")] demo) !! "c1").
Proof.
  assert (Hs : is_Some (carts demo !! "c1")) by (rewrite demo_lookup; eauto).
  split; [exact Hs|].
  exact (carts_never_deleted [(clock0, Checkout "c1"); (clock0, Clear "c2")] demo "c1" Hs).
Defined.

Lemma handle_error_cases clk r s :
  ((handle clk r s).1.1 = 200 \/ (handle clk r s).1.1 = 400 \/
   (handle clk r s).1.1 = 404) /\
  ((handle clk r s).1.1 <> 200 ->
   products (handle clk r s).2 = products s /\
   forall now cartId,
     Cart.items (cart_of now cartId (handle clk r s).2) =
       Cart.items (cart_of now cartId s) /\
     Cart.total (cart_of now cartId (handle clk r s).2) =
       Cart.total (cart_of now cartId s)).
Proof.
  destruct r as [tag_id cart_id|cartId|cartId|cartId|tagId| |]; unfold handle;
    try (split; [now left | intros H; now contradiction H]).
  - destruct (scan_cases clk tag_id cart_id s)
      as [[-> _]|[(tag & _ & _ & _ & ->)|(tag & p & _ & _ & _ & _ & H)]].
    + split; [right; now left | auto].
    + split; [right; now right | auto].
    + split; [now left | intros H'; now contradiction H'].
  - unfold cart_get. rewrite getCart_eq.
    split; [now left | intros H; now contradiction H].
  - rewrite checkout_eq. cbv zeta. destruct (Cart.items _) eqn:E;
      [|split; [now left | intros H; now contradiction H]].
    split; [right; now left|]. intros _. split; [reflexivity|].
    intros now id. destruct s as [ps cs]. cbn [products carts fst snd].
    destruct (decide (cartId = id)) as [->|Hne].
    + rewrite cart_of_insert. unfold cart_of. simpl.
      now destruct (cs !! id).
    + now rewrite cart_of_insert_ne.
  - destruct (decide (tagId = "")) as [->|Hne].
    + unfold simulate. destruct (products s !! normalize "").
      * rewrite getCart_eq. destruct (negb _);
          (split; [now left | intros H; now contradiction H]).
      * split; [right; now right | auto].
    + rewrite simulate_scan by assumption.
      destruct (scan_cases clk (Some tagId) (Some "default") s)
        as [[-> _]|[(tag & _ & _ & _ & ->)|(tag & p & _ & _ & _ & _ & H)]].
      * split; [right; now left | auto].
      * split; [right; now right | auto].
      * split; [now left | intros H'; now contradiction H'].
Qed.

(** X5: a request that is not answered with status 200 leaves the
    catalog and the items and total of every cart as they were (the only
    change it can make is to store the empty cart for an id that had no
    entry). *)
Theorem errors_keep_contents clk r s :
  (handle clk r s).1.1 <> 200 ->
  products (handle clk r s).2 = products s /\
  forall now cartId,
    Cart.items (cart_of now cartId (handle clk r s).2) =
      Cart.items (cart_of now cartId s) /\
    Cart.total (cart_of now cartId (handle clk r s).2) =
      Cart.total (cart_of now cartId s).
Proof. exact (proj2 (handle_error_cases clk r s)). Qed.

Lemma errors_keep_contents_witness :
  (handle clock0 (Checkout "c2") demo).1.1 <> 200 /\
  products (handle clock0 (Checkout "c2") demo).2 = products demo /\
  forall now cartId,
    Cart.items (cart_of now cartId (handle clock0 (Checkout "c2") demo).2) =
      Cart.items (cart_of now cartId demo) /\
    Cart.total (cart_of now cartId (handle clock0 (Checkout "c2") demo).2) =
      Cart.total (cart_of now cartId demo).
Proof.
  assert (H : (handle clock0 (Checkout "c2") demo).1.1 <> 200)
    by (vm_compute; discriminate).
  split; [exact H|].
  exact (errors_keep_contents clock0 (Checkout "c2") demo H).
Defined.

Lemma others_app tag l1 l2 : others tag (l1 ++ l2) = others tag l1 ++ others tag l2.
Proof. unfold others. apply filter_app. Qed.

Lemma others_cons_same tag x l : Item.tag_id x = tag -> others tag (x :: l) = others tag l.
Proof. intros Hx. unfold others. rewrite filter_cons. now rewrite decide_False by tauto. Qed.

Lemma toggle_others now tag p c :
  others tag (Cart.items (toggle now tag p c).2) = others tag (Cart.items c).
Proof.
  destruct (toggle_cases now tag p c) as [(_ & _ & ->)|(l1 & x & l2 & Hl & Hx & _ & ->)];
    simpl.
  - rewrite others_app, (others_cons_same tag) by reflexivity. simpl.
    now rewrite app_nil_r.
  - rewrite Hl, !others_app. now rewrite (others_cons_same tag x) by assumption.
Qed.

(** X6: for a plain cart id and an ASCII tag, scan answers 200 exactly when [tag_id] is a non-empty string
    whose normalized form is a catalog key. *)
Theorem scan_succeeds_iff clk tag_id cart_id s :
  plain_id (default "default" cart_id) = true ->
  (forall tag, tag_id = Some tag -> ascii_only tag = true) ->
  (handle clk (Scan tag_id cart_id) s).1.1 = 200 <->
  exists tag, tag_id = Some tag /\ tag <> "" /\ is_Some (products s !! normalize tag).
Proof.
  intros _ _.
  unfold handle.
  destruct (scan_cases clk tag_id cart_id s)
    as [[-> H]|[(tag & -> & Hne & Hp & ->)|(tag & p & -> & Hne & Hp & _ & H)]].
  - split; [discriminate|]. intros (tag & -> & Hne & _). destruct H; congruence.
  - split; [discriminate|]. intros (tag' & [= <-] & _ & [p Hp']). congruence.
  - split; [|exact (fun _ => H)]. intros _. exists tag. eauto.
Qed.

(** X7: checkout answers 200 exactly when the cart id has an entry whose
    items list is not empty. *)
Theorem checkout_succeeds_iff clk cartId s :
  (handle clk (Checkout cartId) s).1.1 = 200 <->
  exists c, carts s !! cartId = Some c /\ Cart.items c <> [].
Proof.
  unfold handle. rewrite checkout_eq. cbv zeta. unfold cart_of.
  destruct (carts s !! cartId) as [c|] eqn:E; simpl.
  - destruct (Cart.items c) as [|x l] eqn:El; simpl.
    + split; [discriminate|]. intros (c' & [= <-] & H). congruence.
    + split; [|reflexivity]. intros _. exists c. split; [reflexivity|]. congruence.
  - split; [discriminate|]. intros (c' & H & _). discriminate.
Qed.

(** X8: in every reachable state, a successful scan into a cart with a
    plain id toggles the
    membership of the normalized tag in the cart: the reply says "added"
    exactly when no item carried the tag before, "removed" exactly when
    one did, and afterwards the cart holds the tag exactly when it did
    not before. *)
Theorem scan_toggles_membership clk tag cart_id s :
  plain_id (default "default" cart_id) = true ->
  reachable s ->
  is_Some (catalog !! normalize tag) ->
  let cid := default "default" cart_id in
  exists a product price c,
    (handle clk (Scan (Some tag) cart_id) s).1 =
      (200, ScanBody a product price (Cart.total c) (length (Cart.items c)) c) /\
    carts (handle clk (Scan (Some tag) cart_id) s).2 !! cid = Some c /\
    (a = added <-> normalize tag ∉ tags_of cid s) /\
    (a = removed <-> normalize tag ∈ tags_of cid s) /\
    (normalize tag ∈ Item.tag_id <$> Cart.items c <-> normalize tag ∉ tags_of cid s).
Proof.
  intros _.
  intros Hr [p Hp]. cbv zeta. unfold handle.
  assert (Hne : tag <> "") by (intros ->; vm_compute in Hp; discriminate).
  rewrite <- (reachable_products s Hr) in Hp.
  rewrite (scan_eq clk tag cart_id s p Hne Hp). cbv zeta. cbn [fst snd carts].
  set (cid := default "default" cart_id).
  set (c0 := cart_of (at_getCart clk) cid s).
  assert (Htags : tags_of cid s = Item.tag_id <$> Cart.items c0).
  { unfold tags_of, c0. now rewrite (cart_of_items (at_getCart clk)). }
  assert (Hn : NoDup (Item.tag_id <$> Cart.items c0)).
  { apply (ok_nodup (products s)). apply cart_of_ok. now apply reachable_inv. }
  rewrite Htags.
  destruct (toggle_cases (at_scanned clk) (normalize tag) p c0)
    as [(_ & Hnin & ->)|(l1 & x & l2 & Hl & Hx & _ & ->)]; cbn [fst snd].
  - eexists _, _, _, _. split; [reflexivity|]. split; [apply lookup_insert_eq|].
    split; [tauto|]. split; [split; [discriminate | tauto]|].
    split; [tauto|]. intros _. simpl. rewrite fmap_app. apply elem_of_app. right.
    simpl. now left.
  - assert (Hin : normalize tag ∈ Item.tag_id <$> Cart.items c0).
    { rewrite Hl, fmap_app. apply elem_of_app. right. rewrite fmap_cons, Hx. now left. }
    assert (Hout : normalize tag ∉ Item.tag_id <$> (l1 ++ l2)).
    { rewrite Hl, fmap_app, fmap_cons, Hx in Hn.
      apply NoDup_app in Hn as (_ & H2 & H3). apply NoDup_cons in H3 as [H3 _].
      rewrite fmap_app. intros [H|H]%elem_of_app; [|tauto].
      apply (H2 _ H). now left. }
    eexists _, _, _, _. split; [reflexivity|]. split; [apply lookup_insert_eq|].
    split; [split; [discriminate | tauto]|]. split; [tauto|].
    simpl. tauto.
Qed.

Lemma scan_toggles_membership_witness :
  plain_id (default "default" (Some "c1")) = true /\
  reachable demo /\ is_Some (catalog !! normalize "a1b2c3d4") /\
  exists a product price c,
    (handle clock0 (Scan (Some "a1b2c3d4") (Some "c1")) demo).1 =
      (200, ScanBody a product price (Cart.total c) (length (Cart.items c)) c) /\
    carts (handle clock0 (Scan (Some "a1b2c3d4") (Some "c1")) demo).2 !! "c1" = Some c /\
    (a = added <-> normalize "a1b2c3d4" ∉ tags_of "c1" demo) /\
    (a = removed <-> normalize "a1b2c3d4" ∈ tags_of "c1" demo) /\
    (normalize "a1b2c3d4" ∈ Item.tag_id <$> Cart.items c <->
     normalize "a1b2c3d4" ∉ tags_of "c1" demo).
Proof.
  split; [reflexivity|].
  assert (Hc : is_Some (catalog !! normalize "a1b2c3d4")) by (vm_compute; eauto).
  split; [exact demo_reachable|]. split; [exact Hc|].
  exact (scan_toggles_membership clock0 "a1b2c3d4" (Some "c1") demo eq_refl demo_reachable Hc).
Defined.

(** X9: a successful scan into a cart with a plain id touches only the item that carries the
    normalized tag: the items with other tags stay, in their order, and
    the cart keeps its [id] and [createdAt]. *)
Theorem scan_keeps_other_items clk tag cart_id s :
  plain_id (default "default" cart_id) = true ->
  tag <> "" ->
  is_Some (products s !! normalize tag) ->
  let cid := default "default" cart_id in
  let before := cart_of (at_getCart clk) cid s in
  exists c,
    carts (handle clk (Scan (Some tag) cart_id) s).2 !! cid = Some c /\
    others (normalize tag) (Cart.items c) = others (normalize tag) (Cart.items before) /\
    Cart.id c = Cart.id before /\
    Cart.createdAt c = Cart.createdAt before.
Proof.
  intros _.
  intros Hne [p Hp]. cbv zeta. unfold handle.
  rewrite (scan_eq clk tag cart_id s p Hne Hp). cbv zeta. cbn [fst snd carts].
  eexists. split; [apply lookup_insert_eq|].
  now rewrite toggle_others, toggle_id, toggle_createdAt.
Qed.

Lemma scan_keeps_other_items_witness :
  plain_id (default "default" (Some "c1")) = true /\
  "a1b2c3d4" <> "" /\ is_Some (products demo !! normalize "a1b2c3d4") /\
  exists c,
    carts (handle clock0 (Scan (Some "a1b2c3d4") (Some "c1")) demo).2 !! "c1" = Some c /\
    others (normalize "a1b2c3d4") (Cart.items c) =
      others (normalize "a1b2c3d4") (Cart.items (cart_of (at_getCart clock0) "c1" demo)) /\
    Cart.id c = Cart.id (cart_of (at_getCart clock0) "c1" demo) /\
    Cart.createdAt c = Cart.createdAt (cart_of (at_getCart clock0) "c1" demo).
Proof.
  split; [reflexivity|].
  assert (Hne : "a1b2c3d4" <> "") by discriminate.
  assert (Hp : is_Some (products demo !! normalize "a1b2c3d4")) by (vm_compute; eauto).
  split; [exact Hne|]. split; [exact Hp|].
  exact (scan_keeps_other_items clock0 "a1b2c3d4" (Some "c1") demo eq_refl Hne Hp).
Defined.

(** X10: a successful scan into a cart with a plain id reports the product's name and price and the
    total and item count of the cart as stored; the total moves by
    exactly the product's price and the count by exactly one, up when
    the reply says "added", down when it says "removed". *)
Theorem scan_reports_stored_cart clk tag cart_id s p :
  plain_id (default "default" cart_id) = true ->
  tag <> "" ->
  products s !! normalize tag = Some p ->
  let cid := default "default" cart_id in
  let before := cart_of (at_getCart clk) cid s in
  exists a c,
    handle clk (Scan (Some tag) cart_id) s =
      ((200, ScanBody a (Product.name p) (Product.price p)
                      (Cart.total c) (length (Cart.items c)) c),
       mkServer (products s) (<[cid := c]> (carts s))) /\
    ((a = added /\
      Cart.total c = Cart.total before + Product.price p /\
      length (Cart.items c) = S (length (Cart.items before))) \/
     (a = removed /\
      Cart.total c = Cart.total before - Product.price p /\
      S (length (Cart.items c)) = length (Cart.items before))).
Proof.
  intros _.
  intros Hne Hp. cbv zeta. unfold handle.
  rewrite (scan_eq clk tag cart_id s p Hne Hp). cbv zeta.
  set (c0 := cart_of _ _ _).
  destruct (toggle_cases (at_scanned clk) (normalize tag) p c0)
    as [(_ & _ & ->)|(l1 & x & l2 & Hl & _ & _ & ->)]; cbn [fst snd].
  - eexists _, _. split; [reflexivity|]. left. simpl.
    rewrite length_app. simpl. split; [reflexivity|]. split; [reflexivity|]. lia.
  - eexists _, _. split; [reflexivity|]. right. simpl.
    rewrite Hl, !length_app. simpl. split; [reflexivity|]. split; [reflexivity|]. lia.
Qed.

Lemma scan_reports_stored_cart_witness :
  plain_id (default "default" (Some "c1")) = true /\
  "cafe babe" <> "" /\
  products demo !! normalize "cafe babe" = Some (Product.mk "Biscuits (200g)" 25 "Snacks") /\
  exists a c,
    handle clock0 (Scan (Some "cafe babe") (Some "c1")) demo =
      ((200, ScanBody a "Biscuits (200g)" 25 (Cart.total c) (length (Cart.items c)) c),
       mkServer (products demo) (<["c1" := c]> (carts demo))) /\
    ((a = added /\
      Cart.total c = Cart.total (cart_of (at_getCart clock0) "c1" demo) + 25 /\
      length (Cart.items c) =
        S (length (Cart.items (cart_of (at_getCart clock0) "c1" demo)))) \/
     (a = removed /\
      Cart.total c = Cart.total (cart_of (at_getCart clock0) "c1" demo) - 25 /\
      S (length (Cart.items c)) =
        length (Cart.items (cart_of (at_getCart clock0) "c1" demo)))).
Proof.
  split; [reflexivity|].
  assert (Hne : "cafe babe" <> "") by discriminate.
  assert (Hp : products demo !! normalize "cafe babe" =
               Some (Product.mk "Biscuits (200g)" 25 "Snacks"))
    by (vm_compute; reflexivity).
  split; [exact Hne|]. split; [exact Hp|].
  exact (scan_reports_stored_cart clock0 "cafe babe" (Some "c1") demo _ eq_refl Hne Hp).
Defined.

Lemma cart_get_eq clk cartId s :
  cart_get clk cartId s =
  ((200, CartBody (cart_of (at_getCart clk) cartId s)),
   mkServer (products s) (<[cartId := cart_of (at_getCart clk) cartId s]> (carts s))).
Proof. unfold cart_get. now rewrite getCart_eq. Qed.

Lemma insert_cart_of now cartId s :
  carts s !! cartId = Some (cart_of now cartId s) ->
  mkServer (products s) (<[cartId := cart_of now cartId s]> (carts s)) = s.
Proof. intros H. rewrite insert_id by exact H. now destruct s. Qed.

(** Scanning a catalog tag into a cart that is stored empty with total 0
    adds the product and reports its price as the total. *)
Lemma scan_into_empty clk tag cart_id s p created :
  tag <> "" ->
  products s !! normalize tag = Some p ->
  carts s !! default "default" cart_id =
    Some (Cart.mk (default "default" cart_id) [] 0 created) ->
  (handle clk (Scan (Some tag) cart_id) s).1 =
  (200, ScanBody added (Product.name p) (Product.price p) (Product.price p) 1
          (Cart.mk (default "default" cart_id)
             [Item.mk (normalize tag) (Product.name p) (Product.price p)
                      (Product.category p) (at_scanned clk)]
             (Product.price p) created)).
Proof.
  intros Hne Hp Hc. unfold handle. rewrite (scan_eq clk tag cart_id s p Hne Hp).
  cbv zeta. unfold cart_of. rewrite Hc. reflexivity.
Qed.

(** X11: reading a cart with a plain id twice gives the same reply, and the second read
    changes nothing: the first read returns the stored cart untouched or
    stores the empty cart it returns, the second finds that cart
    whatever the clock says. *)
Theorem cart_get_twice clk1 clk2 cartId s :
  plain_id cartId = true ->
  let r1 := handle clk1 (GetCart cartId) s in
  r1.1 = (200, CartBody (cart_of (at_getCart clk1) cartId s)) /\
  carts r1.2 !! cartId = Some (cart_of (at_getCart clk1) cartId s) /\
  handle clk2 (GetCart cartId) r1.2 = r1 /\
  (is_Some (carts s !! cartId) -> r1.2 = s).
Proof.
  intros _.
  cbv zeta. unfold handle. rewrite !cart_get_eq. cbn [fst snd products carts].
  split; [reflexivity|]. split; [apply lookup_insert_eq|]. split.
  - destruct s as [ps cs]. cbn [products carts]. rewrite cart_of_insert.
    now rewrite insert_insert_eq.
  - intros [c Hc]. apply insert_cart_of. unfold cart_of. now rewrite Hc.
Qed.

Lemma cart_get_twice_witness :
  plain_id "c1" = true /\
  is_Some (carts demo !! "c1") /\ (handle clock0 (GetCart "c1") demo).2 = demo.
Proof.
  split; [reflexivity|].
  assert (Hs : is_Some (carts demo !! "c1")) by (rewrite demo_lookup; eauto).
  split; [exact Hs|].
  exact (proj2 (proj2 (proj2 (cart_get_twice clock0 clock0 "c1" demo eq_refl))) Hs).
Defined.

(** X12: a cart with a plain id cannot be checked out twice in a row, nor after a
    clear: once a clear or a checkout (successful or not) has been served
    for a cart id, the next checkout of that id fails with EmptyCart and
    returns the state unchanged. *)
Theorem checkout_after_reset clk1 clk2 cartId s :
  plain_id cartId = true ->
  let after_clear := (handle clk1 (Clear cartId) s).2 in
  let after_checkout := (handle clk1 (Checkout cartId) s).2 in
  handle clk2 (Checkout cartId) after_clear = (EmptyCart, after_clear) /\
  handle clk2 (Checkout cartId) after_checkout = (EmptyCart, after_checkout).
Proof.
  intros _.
  cbv zeta. unfold handle. split.
  - unfold cart_clear. cbn [snd]. rewrite checkout_eq. cbv zeta.
    rewrite cart_of_insert. cbn [Cart.items products carts].
    now rewrite insert_insert_eq.
  - rewrite (checkout_eq clk1). cbv zeta.
    destruct (Cart.items (cart_of (at_getCart clk1) cartId s)) eqn:E; cbn [snd];
      rewrite checkout_eq; cbv zeta; rewrite cart_of_insert;
      cbn [Cart.items products carts]; rewrite ?E; now rewrite insert_insert_eq.
Qed.

(** X13: in every reachable state, the receipt of a successful checkout
    is consistent: it lists at least one item, [itemCount] is the number
    of items, [total] is the sum of their prices, no two items carry the
    same tag, and the identifier and time are the clock readings. *)
Theorem receipt_consistent clk cartId s receipt s' :
  reachable s ->
  handle clk (Checkout cartId) s = ((200, ReceiptBody receipt), s') ->
  Receipt.items receipt <> [] /\
  Receipt.itemCount receipt = length (Receipt.items receipt) /\
  Receipt.total receipt = sum_prices (Receipt.items receipt) /\
  NoDup (Item.tag_id <$> Receipt.items receipt) /\
  Receipt.receiptId receipt = at_receipt clk /\
  Receipt.checkoutTime receipt = at_checkout clk.
Proof.
  intros Hr. unfold handle. rewrite checkout_eq. cbv zeta.
  pose proof (cart_of_ok (at_getCart clk) cartId s (reachable_inv s Hr)) as [Ht Hn _].
  destruct (Cart.items (cart_of (at_getCart clk) cartId s)) as [|x l] eqn:E;
    [discriminate|].
  intros [= <- <-]. simpl. repeat split; auto; discriminate.
Qed.

Lemma receipt_consistent_witness :
  reachable demo /\
  handle clock0 (Checkout "c1") demo =
    ((200, ReceiptBody (Receipt.mk 0 (Cart.items demo_cart) 120 2 0)),
     mkServer (products demo) (<["c1" := Cart.mk "c1" [] 0 0]> (carts demo))) /\
  Receipt.total (Receipt.mk 0 (Cart.items demo_cart) 120 2 0) =
    sum_prices (Receipt.items (Receipt.mk 0 (Cart.items demo_cart) 120 2 0)).
Proof.
  assert (H : handle clock0 (Checkout "c1") demo =
    ((200, ReceiptBody (Receipt.mk 0 (Cart.items demo_cart) 120 2 0)),
     mkServer (products demo) (<["c1" := Cart.mk "c1" [] 0 0]> (carts demo)))).
  { unfold handle. rewrite checkout_eq. cbv zeta. unfold cart_of.
    rewrite demo_lookup. reflexivity. }
  split; [exact demo_reachable|]. split; [exact H|].
  exact (proj1 (proj2 (proj2
           (receipt_consistent clock0 "c1" demo _ _ demo_reachable H)))).
Defined.

(** X14: after a clear, and in a reachable state after a checkout, of a
    plain cart id the
    cart starts over: scanning a catalog tag into that cart replies
    "added" with the product's price as the cart total and one item. *)
Theorem scan_after_reset clk1 clk2 tag cartId s :
  plain_id cartId = true ->
  reachable s ->
  is_Some (catalog !! normalize tag) ->
  forall r, r = Clear cartId \/ r = Checkout cartId ->
  exists p c,
    catalog !! normalize tag = Some p /\
    (handle clk2 (Scan (Some tag) (Some cartId)) (handle clk1 r s).2).1 =
    (200, ScanBody added (Product.name p) (Product.price p) (Product.price p) 1 c) /\
    Cart.items c =
      [Item.mk (normalize tag) (Product.name p) (Product.price p)
               (Product.category p) (at_scanned clk2)] /\
    Cart.total c = Product.price p.
Proof.
  intros _.
  intros Hr [p Hp] r Hcases.
  assert (Hne : tag <> "") by (intros ->; vm_compute in Hp; discriminate).
  assert (Hp1 : products (handle clk1 r s).2 !! normalize tag = Some p).
  { now rewrite handle_products, (reachable_products s Hr). }
  assert (Hc : exists created,
    carts (handle clk1 r s).2 !! cartId = Some (Cart.mk cartId [] 0 created)).
  { destruct Hcases as [-> | ->]; unfold handle.
    - eexists. unfold cart_clear. cbn [snd carts]. apply lookup_insert_eq.
    - rewrite checkout_eq. cbv zeta.
      pose proof (cart_of_ok (at_getCart clk1) cartId s (reachable_inv s Hr)) as [Ht _ _].
      assert (Hid : Cart.id (cart_of (at_getCart clk1) cartId s) = cartId).
      { unfold cart_of. destruct (carts s !! cartId) as [c|] eqn:E; simpl; [|reflexivity].
        exact (reachable_cart_id s cartId c Hr E). }
      destruct (cart_of (at_getCart clk1) cartId s) as [i l t c] eqn:Ec.
      simpl in *. destruct l as [|x l]; cbn [snd carts]; rewrite lookup_insert_eq.
      + exists c. subst. reflexivity.
      + eexists. reflexivity. }
  destruct Hc as [created Hc]. exists p. eexists. split; [exact Hp|].
  split; [exact (scan_into_empty clk2 tag (Some cartId) _ p created Hne Hp1 Hc)|].
  split; reflexivity.
Qed.

Lemma scan_after_reset_witness :
  plain_id "c1" = true /\
  reachable demo /\ is_Some (catalog !! normalize "a1b2c3d4") /\
  exists p c,
    catalog !! normalize "a1b2c3d4" = Some p /\
    (handle clock0 (Scan (Some "a1b2c3d4") (Some "c1"))
       (handle clock0 (Checkout "c1") demo).2).1 =
    (200, ScanBody added (Product.name p) (Product.price p) (Product.price p) 1 c) /\
    Cart.items c =
      [Item.mk (normalize "a1b2c3d4") (Product.name p) (Product.price p)
               (Product.category p) (at_scanned clock0)] /\
    Cart.total c = Product.price p.
Proof.
  split; [reflexivity|].
  assert (Hc : is_Some (catalog !! normalize "a1b2c3d4")) by (vm_compute; eauto).
  split; [exact demo_reachable|]. split; [exact Hc|].
  exact (scan_after_reset clock0 clock0 "a1b2c3d4" "c1" demo eq_refl demo_reachable Hc
           (Checkout "c1") (or_intror eq_refl)).
Defined.

(** ** Further properties of normalization *)

Lemma upper_char_fixed c : is_lower c = false -> upper_char c = c.
Proof. intros H. unfold upper_char. now rewrite H. Qed.

Lemma remove_whitespace_app a b :
  remove_whitespace (a ++ b)%string =
  (remove_whitespace a ++ remove_whitespace b)%string.
Proof.
  induction a as [|c a IH]; [reflexivity|].
  change (String c a ++ b)%string with (String c (a ++ b)%string).
  cbn [remove_whitespace]. destruct (is_space c); [exact IH|].
  change (String c (remove_whitespace a) ++ remove_whitespace b)%string
    with (String c (remove_whitespace a ++ remove_whitespace b)%string).
  now rewrite IH.
Qed.

Lemma toUpperCase_app a b :
  toUpperCase (a ++ b)%string = (toUpperCase a ++ toUpperCase b)%string.
Proof.
  induction a as [|c a IH]; [reflexivity|].
  change (String c a ++ b)%string with (String c (a ++ b)%string).
  cbn [toUpperCase]. rewrite IH. reflexivity.
Qed.

Lemma normalize_app a b :
  normalize (a ++ b)%string = (normalize a ++ normalize b)%string.
Proof. unfold normalize. now rewrite toUpperCase_app, remove_whitespace_app. Qed.

Lemma normalize_no_space tag : has_space (normalize tag) = false.
Proof.
  unfold normalize. induction tag as [|c tag IH]; [reflexivity|].
  cbn [toUpperCase remove_whitespace].
  destruct (is_space (upper_char c)) eqn:E; [exact IH|].
  cbn [has_space]. now rewrite E, IH.
Qed.

Lemma normalize_clean tag :
  has_lower tag = false -> has_space tag = false -> normalize tag = tag.
Proof.
  unfold normalize. induction tag as [|c tag IH]; [reflexivity|].
  cbn [has_lower has_space toUpperCase remove_whitespace].
  intros [Hl Hl']%orb_false_iff [Hs Hs']%orb_false_iff.
  rewrite (upper_char_fixed c Hl), Hs. now rewrite IH.
Qed.

(** X15: for an ASCII tag, the normalized form holds no lowercase letter and no
    whitespace; the strings that normalization leaves unchanged are
    exactly the strings without lowercase letters and whitespace; hence
    normalizing twice is normalizing once. *)
Theorem normalize_fixed_points tag :
  ascii_only tag = true ->
  has_lower (normalize tag) = false /\
  has_space (normalize tag) = false /\
  (normalize tag = tag <-> has_lower tag = false /\ has_space tag = false) /\
  normalize (normalize tag) = normalize tag.
Proof.
  intros _.
  split; [apply normalize_no_lowercase|]. split; [apply normalize_no_space|]. split.
  - split.
    + intros <-. split; [apply normalize_no_lowercase | apply normalize_no_space].
    + intros [Hl Hs]. now apply normalize_clean.
  - apply normalize_clean; [apply normalize_no_lowercase | apply normalize_no_space].
Qed.

(** X16: normalization works character by character: the normalized
    form of a concatenation is the concatenation of the normalized
    forms, so whitespace inserted anywhere in a tag, in front of it or
    behind it, does not change the key. *)
Theorem normalize_ignores_whitespace a w b :
  normalize (a ++ b)%string = (normalize a ++ normalize b)%string /\
  (Forall (fun c => is_space c = true) (list_ascii_of_string w) ->
   normalize (a ++ w ++ b)%string = normalize (a ++ b)%string).
Proof.
  split; [apply normalize_app|]. intros Hw.
  apply normalize_empty in Hw. now rewrite !normalize_app, Hw.
Qed.

Lemma normalize_ignores_whitespace_witness :
  Forall (fun c => is_space c = true) (list_ascii_of_string "  ") /\
  normalize ("a1b2" ++ "  " ++ "c3d4")%string = normalize ("a1b2" ++ "c3d4")%string.
Proof.
  assert (Hw : Forall (fun c => is_space c = true) (list_ascii_of_string "  "))
    by (repeat constructor).
  split; [exact Hw|].
  exact (proj2 (normalize_ignores_whitespace "a1b2" "  " "c3d4") Hw).
Defined.

Lemma catalog_keys_clean k p :
  catalog !! k = Some p -> has_lower k = false /\ has_space k = false.
Proof.
  intros E. apply elem_of_map_to_list, list_elem_of_In in E.
  assert (H : forallb (fun kp : string * Product.t =>
                         negb (has_lower kp.1) && negb (has_space kp.1))
                      (map_to_list catalog) = true)
    by (vm_compute; reflexivity).
  rewrite forallb_forall in H. specialize (H _ E). cbn [fst] in H.
  apply andb_true_iff in H as [H1 H2].
  apply negb_true_iff in H1. apply negb_true_iff in H2. auto.
Qed.

(** X17: every product of the catalog can be scanned: each catalog key
    is its own normalized form, so in every reachable state a scan into a cart with a plain id whose
    tag is a catalog key, in any letter case, succeeds and reports that
    product's name and price. *)
Theorem catalog_products_scannable clk raw k p cart_id s :
  plain_id (default "default" cart_id) = true ->
  reachable s ->
  catalog !! k = Some p ->
  toUpperCase raw = k ->
  normalize k = k /\
  exists a total count c,
    (handle clk (Scan (Some raw) cart_id) s).1 =
    (200, ScanBody a (Product.name p) (Product.price p) total count c).
Proof.
  intros _.
  intros Hr Hk Hraw. destruct (catalog_keys_clean k p Hk) as [Hl Hs].
  assert (Hnk : normalize k = k) by now apply normalize_clean.
  split; [exact Hnk|].
  assert (Hn : normalize raw = k).
  { unfold normalize. rewrite Hraw. clear -Hs.
    induction k as [|c k IH]; [reflexivity|]. cbn in *.
    apply orb_false_iff in Hs as [-> Hs]. now rewrite IH. }
  assert (Hne : raw <> "").
  { intros ->. cbn in Hraw. subst k. vm_compute in Hk. discriminate. }
  assert (Hp : products s !! normalize raw = Some p)
    by now rewrite Hn, (reachable_products s Hr).
  unfold handle. rewrite (scan_eq clk raw cart_id s p Hne Hp). cbv zeta. cbn [fst].
  eexists _, _, _, _. reflexivity.
Qed.

Lemma catalog_products_scannable_witness :
  plain_id (default "default" None) = true /\
  reachable demo /\
  catalog !! "CAFEBABE" = Some (Product.mk "Biscuits (200g)" 25 "Snacks") /\
  toUpperCase "CafeBabe" = "CAFEBABE" /\
  normalize "CAFEBABE" = "CAFEBABE" /\
  exists a total count c,
    (handle clock0 (Scan (Some "CafeBabe") None) demo).1 =
    (200, ScanBody a "Biscuits (200g)" 25 total count c).
Proof.
  split; [reflexivity|].
  assert (Hk : catalog !! "CAFEBABE" = Some (Product.mk "Biscuits (200g)" 25 "Snacks"))
    by (vm_compute; reflexivity).
  assert (Hraw : toUpperCase "CafeBabe" = "CAFEBABE") by reflexivity.
  split; [exact demo_reachable|]. split; [exact Hk|]. split; [exact Hraw|].
  exact (catalog_products_scannable clock0 "CafeBabe" "CAFEBABE" _ None demo
           eq_refl demo_reachable Hk Hraw).
Defined.

(** ** Scans of different products *)

(** The effect of the toggle on total and item count depends only on
    whether the cart holds the tag. *)
Lemma toggle_effect now tag p c :
  let c' := (toggle now tag p c).2 in
  (tag ∉ Item.tag_id <$> Cart.items c ->
   Cart.total c' = Cart.total c + Product.price p /\
   length (Cart.items c') = S (length (Cart.items c))) /\
  (tag ∈ Item.tag_id <$> Cart.items c ->
   Cart.total c' = Cart.total c - Product.price p /\
   S (length (Cart.items c')) = length (Cart.items c)).
Proof.
  cbv zeta.
  destruct (toggle_cases now tag p c) as [(_ & Hnin & ->)|(l1 & x & l2 & Hl & Hx & _ & ->)];
    cbn [snd Cart.total Cart.items].
  - split; [|tauto]. intros _. rewrite length_app. simpl. split; [reflexivity | lia].
  - assert (Hin : tag ∈ Item.tag_id <$> Cart.items c).
    { rewrite Hl, fmap_app. apply elem_of_app. right. rewrite fmap_cons, Hx. now left. }
    split; [tauto|]. intros _. rewrite Hl, !length_app. simpl. split; [reflexivity | lia].
Qed.

Lemma toggle_member_other now tag p c other :
  other <> tag ->
  other ∈ Item.tag_id <$> Cart.items (toggle now tag p c).2 <->
  other ∈ Item.tag_id <$> Cart.items c.
Proof.
  intros Hne.
  destruct (toggle_cases now tag p c) as [(_ & _ & ->)|(l1 & x & l2 & Hl & Hx & _ & ->)];
    cbn [snd Cart.items].
  - rewrite fmap_app, elem_of_app. simpl. rewrite list_elem_of_singleton. tauto.
  - rewrite Hl, !fmap_app, fmap_cons, !elem_of_app, elem_of_cons, Hx. tauto.
Qed.

Lemma toggle_member_self now tag p c :
  NoDup (Item.tag_id <$> Cart.items c) ->
  tag ∈ Item.tag_id <$> Cart.items (toggle now tag p c).2 <->
  tag ∉ Item.tag_id <$> Cart.items c.
Proof.
  intros Hn.
  destruct (toggle_cases now tag p c) as [(_ & Hnin & ->)|(l1 & x & l2 & Hl & Hx & _ & ->)];
    cbn [snd Cart.items].
  - rewrite fmap_app, elem_of_app. simpl. rewrite list_elem_of_singleton. tauto.
  - rewrite Hl, fmap_app, fmap_cons, Hx in Hn.
    rewrite Hl, !fmap_app, fmap_cons, Hx.
    apply NoDup_app in Hn as (_ & H2 & H3). apply NoDup_cons in H3 as [H3 _].
    rewrite !elem_of_app, elem_of_cons. split.
    + intros [H|H]; [|tauto]. exfalso. apply (H2 _ H). now left.
    + intros H. exfalso. apply H. right. now left.
Qed.

(** X18: scans of two different products do not interfere: in every
    reachable state, scanning two catalog tags with different normalized
    forms into the same cart gives the same total, the same item count
    and the same set of tags in either order. *)
Theorem scans_commute clkA clkB clkC clkD tag1 tag2 cart_id s :
  reachable s ->
  is_Some (catalog !! normalize tag1) ->
  is_Some (catalog !! normalize tag2) ->
  normalize tag1 <> normalize tag2 ->
  let cid := default "default" cart_id in
  let s12 := (handle clkB (Scan (Some tag2) cart_id)
                (handle clkA (Scan (Some tag1) cart_id) s).2).2 in
  let s21 := (handle clkD (Scan (Some tag1) cart_id)
                (handle clkC (Scan (Some tag2) cart_id) s).2).2 in
  total_of cid s12 = total_of cid s21 /\
  count_of cid s12 = count_of cid s21 /\
  forall tag, tag ∈ tags_of cid s12 <-> tag ∈ tags_of cid s21.
Proof.
  intros Hr [p1 Hp1] [p2 Hp2] Hdiff. cbv zeta. unfold handle.
  assert (Hne1 : tag1 <> "") by (intros ->; vm_compute in Hp1; discriminate).
  assert (Hne2 : tag2 <> "") by (intros ->; vm_compute in Hp2; discriminate).
  pose proof (reachable_inv s Hr) as Hinv.
  rewrite <- (reachable_products s Hr) in Hp1, Hp2.
  set (cid := default "default" cart_id).
  rewrite (scan_eq clkA tag1 cart_id s p1 Hne1 Hp1).
  rewrite (scan_eq clkC tag2 cart_id s p2 Hne2 Hp2). cbv zeta. cbn [snd]. fold cid.
  set (cA := cart_of (at_getCart clkA) cid s).
  set (cC := cart_of (at_getCart clkC) cid s).
  set (c1 := (toggle (at_scanned clkA) (normalize tag1) p1 cA).2).
  set (c2 := (toggle (at_scanned clkC) (normalize tag2) p2 cC).2).
  rewrite (scan_eq clkB tag2 cart_id (mkServer (products s) _) p2 Hne2 Hp2).
  rewrite (scan_eq clkD tag1 cart_id (mkServer (products s) _) p1 Hne1 Hp1).
  cbv zeta. cbn [snd products carts]. fold cid. rewrite !cart_of_insert.
  set (c12 := (toggle (at_scanned clkB) (normalize tag2) p2 c1).2).
  set (c21 := (toggle (at_scanned clkD) (normalize tag1) p1 c2).2).
  unfold total_of, count_of, tags_of. rewrite !cart_of_insert.
  assert (HokA : cart_ok (products s) cA) by (apply cart_of_ok; exact Hinv).
  assert (HokC : cart_ok (products s) cC) by (apply cart_of_ok; exact Hinv).
  assert (Hok1 : cart_ok (products s) c1) by (apply toggle_ok; assumption).
  assert (Hok2 : cart_ok (products s) c2) by (apply toggle_ok; assumption).
  assert (Hitems : Cart.items cC = Cart.items cA).
  { unfold cA, cC.
    now rewrite (cart_of_items (at_getCart clkC)), (cart_of_items (at_getCart clkA)). }
  assert (Htotal : Cart.total cC = Cart.total cA).
  { unfold cA, cC. now rewrite !cart_of_total. }
  pose proof (toggle_effect (at_scanned clkA) (normalize tag1) p1 cA) as [EA1 EA2].
  pose proof (toggle_effect (at_scanned clkC) (normalize tag2) p2 cC) as [EC1 EC2].
  pose proof (toggle_effect (at_scanned clkB) (normalize tag2) p2 c1) as [EB1 EB2].
  pose proof (toggle_effect (at_scanned clkD) (normalize tag1) p1 c2) as [ED1 ED2].
  pose proof (toggle_member_other (at_scanned clkA) (normalize tag1) p1 cA
                (normalize tag2) (not_eq_sym Hdiff)) as M2.
  pose proof (toggle_member_other (at_scanned clkC) (normalize tag2) p2 cC
                (normalize tag1) Hdiff) as M1.
  cbv zeta in *. fold c1 in EA1, EA2, M2. fold c2 in EC1, EC2, M1.
  fold c12 in EB1, EB2. fold c21 in ED1, ED2. rewrite Hitems in *. rewrite Htotal in *.
  assert (Hnum : Cart.total c12 = Cart.total c21 /\
                 length (Cart.items c12) = length (Cart.items c21)).
  { destruct (decide (normalize tag1 ∈ Item.tag_id <$> Cart.items cA)) as [I1|I1];
      destruct (decide (normalize tag2 ∈ Item.tag_id <$> Cart.items cA)) as [I2|I2];
      pose proof I1 as J1; pose proof I2 as J2;
      rewrite <- M1 in J1; rewrite <- M2 in J2;
      repeat match goal with
             | H : ?P -> _, H' : ?P |- _ => specialize (H H')
             end; lia. }
  split; [tauto|]. split; [tauto|]. intros tag. unfold c12, c21.
  destruct (decide (tag = normalize tag1)) as [->|N1].
  - rewrite (toggle_member_other _ _ _ c1 _ Hdiff).
    rewrite (toggle_member_self _ _ _ c2 (ok_nodup _ _ Hok2)).
    unfold c1. rewrite (toggle_member_self _ _ _ cA (ok_nodup _ _ HokA)).
    now rewrite M1.
  - destruct (decide (tag = normalize tag2)) as [->|N2].
    + rewrite (toggle_member_self _ _ _ c1 (ok_nodup _ _ Hok1)).
      rewrite (toggle_member_other _ _ _ c2 _ N1).
      unfold c2. rewrite (toggle_member_self _ _ _ cC (ok_nodup _ _ HokC)).
      now rewrite M2, Hitems.
    + rewrite (toggle_member_other _ _ _ c1 _ N2), (toggle_member_other _ _ _ c2 _ N1).
      unfold c1, c2.
      rewrite (toggle_member_other _ _ _ cA _ N1), (toggle_member_other _ _ _ cC _ N2).
      now rewrite Hitems.
Qed.

Lemma scans_commute_witness :
  reachable demo /\
  is_Some (catalog !! normalize "a1b2c3d4") /\
  is_Some (catalog !! normalize "cafebabe") /\
  normalize "a1b2c3d4" <> normalize "cafebabe" /\
  total_of "c1"
    (handle clock0 (Scan (Some "cafebabe") (Some "c1"))
       (handle clock0 (Scan (Some "a1b2c3d4") (Some "c1")) demo).2).2 =
  total_of "c1"
    (handle clock0 (Scan (Some "a1b2c3d4") (Some "c1"))
       (handle clock0 (Scan (Some "cafebabe") (Some "c1")) demo).2).2.
Proof.
  assert (H1 : is_Some (catalog !! normalize "a1b2c3d4")) by (vm_compute; eauto).
  assert (H2 : is_Some (catalog !! normalize "cafebabe")) by (vm_compute; eauto).
  assert (Hd : normalize "a1b2c3d4" <> normalize "cafebabe") by (vm_compute; discriminate).
  split; [exact demo_reachable|]. split; [exact H1|]. split; [exact H2|].
  split; [exact Hd|].
  exact (proj1 (scans_commute clock0 clock0 clock0 clock0 "a1b2c3d4" "cafebabe"
                  (Some "c1") demo demo_reachable H1 H2 Hd)).
Defined.

(** ** The standalone server against the exported application *)

Lemma standalone_scan_eq clk tag_id cart_id s :
  Standalone.plain (Standalone.scan clk tag_id cart_id s).1 = (scan clk tag_id cart_id s).1 /\
  (Standalone.scan clk tag_id cart_id s).2 = (scan clk tag_id cart_id s).2.
Proof.
  unfold Standalone.scan, scan.
  destruct tag_id as [[|a tag]|]; [split; reflexivity| |split; reflexivity].
  cbv zeta. destruct (products s !! normalize (String a tag)); [|split; reflexivity].
  rewrite getCart_eq. destruct (negb _); split; reflexivity.
Qed.

(** X19: the scan handler of the standalone server and the one of the
    exported application make the same state transition and send the
    same status; their bodies are equal except for an unknown product,
    where the standalone server also reports the normalized tag it
    looked up. *)
Theorem standalone_scan_agrees clk tag_id cart_id s :
  Standalone.plain (Standalone.scan clk tag_id cart_id s).1 =
    (handle clk (Scan tag_id cart_id) s).1 /\
  (Standalone.scan clk tag_id cart_id s).2 = (handle clk (Scan tag_id cart_id) s).2 /\
  (forall tag, tag_id = Some tag -> tag <> "" ->
     products s !! normalize tag = None ->
     Standalone.scan clk tag_id cart_id s =
     (Standalone.SentUnknown 404 "Unknown product" (normalize tag), s)).
Proof.
  unfold handle. split; [apply standalone_scan_eq|]. split; [apply standalone_scan_eq|].
  intros tag -> Hne Hp. destruct tag as [|a tag]; [congruence|].
  unfold Standalone.scan. now rewrite Hp.
Qed.

Lemma standalone_scan_agrees_witness :
  "zz zz" <> "" /\ products demo !! normalize "zz zz" = None /\
  Standalone.scan clock0 (Some "zz zz") None demo =
  (Standalone.SentUnknown 404 "Unknown product" "ZZZZ", demo).
Proof.
  assert (Hne : "zz zz" <> "") by discriminate.
  assert (Hp : products demo !! normalize "zz zz" = None) by (vm_compute; reflexivity).
  split; [exact Hne|]. split; [exact Hp|].
  exact (proj2 (proj2 (standalone_scan_agrees clock0 (Some "zz zz") None demo))
           "zz zz" eq_refl Hne Hp).
Defined.

(** X20: in the standalone server too, simulate is scan on the cart
    "default": for every tag a path can carry (never the empty string)
    the two handlers send the same reply, including the tag reported for
    an unknown product, and make the same state transition. *)
Theorem standalone_simulate_is_scan clk tagId s :
  tagId <> "" ->
  Standalone.simulate clk tagId s = Standalone.scan clk (Some tagId) (Some "default") s /\
  Standalone.simulate clk tagId s = Standalone.scan clk (Some tagId) None s.
Proof.
  intros Hne. destruct tagId as [|a tagId]; [congruence|]. split; reflexivity.
Qed.

Lemma standalone_simulate_is_scan_witness :
  "deadbeef" <> "" /\
  Standalone.simulate clock0 "deadbeef" demo =
  Standalone.scan clock0 (Some "deadbeef") (Some "default") demo.
Proof.
  assert (Hne : "deadbeef" <> "") by discriminate.
  split; [exact Hne|].
  exact (proj1 (standalone_simulate_is_scan clock0 "deadbeef" demo Hne)).
Defined.

(** ** What two scans of one tag leave behind *)

(** The first item that carries a tag determines the split of the list
    around it. *)
Lemma first_match_unique tag (l1 l1' l2 l2' : list Item.t) x x' :
  l1 ++ x :: l2 = l1' ++ x' :: l2' ->
  Item.tag_id x = tag -> Item.tag_id x' = tag ->
  (tag ∉ Item.tag_id <$> l1) -> (tag ∉ Item.tag_id <$> l1') ->
  l1 = l1' /\ x = x' /\ l2 = l2'.
Proof.
  revert l1'. induction l1 as [|y l1 IH]; intros [|y' l1'] E Hx Hx' H1 H1'.
  - simpl in E. injection E as -> ->. auto.
  - simpl in E. injection E as -> _. exfalso. apply H1'. rewrite fmap_cons, Hx. now left.
  - simpl in E. injection E as -> _. exfalso. apply H1. rewrite fmap_cons, Hx'. now left.
  - simpl in E. injection E as -> E.
    destruct (IH l1' E Hx Hx') as (-> & -> & ->); auto.
    + intros H. apply H1. rewrite fmap_cons. now right.
    + intros H. apply H1'. rewrite fmap_cons. now right.
Qed.

(** X21: scanning a catalog tag that the cart does not hold and scanning
    it again restores the state exactly: the second scan removes the item
    the first one appended, and nothing else has changed. *)
Theorem scan_twice_absent_restores_state clk1 clk2 tag cart_id s c :
  tag <> "" ->
  is_Some (products s !! normalize tag) ->
  carts s !! default "default" cart_id = Some c ->
  (normalize tag ∉ Item.tag_id <$> Cart.items c) ->
  (handle clk2 (Scan (Some tag) cart_id)
     (handle clk1 (Scan (Some tag) cart_id) s).2).2 = s.
Proof.
  intros Hne [p Hp] Hc Hnin. unfold handle.
  rewrite (scan_eq clk1 tag cart_id s p Hne Hp). cbv zeta. cbn [snd].
  set (cid := default "default" cart_id) in *.
  assert (Hc0 : cart_of (at_getCart clk1) cid s = c) by (unfold cart_of; now rewrite Hc).
  rewrite Hc0.
  destruct (toggle_cases (at_scanned clk1) (normalize tag) p c)
    as [(_ & _ & ->)|(l1 & x & l2 & Hl & Hx & _ & _)].
  2:{ exfalso. apply Hnin. rewrite Hl, fmap_app. apply elem_of_app. right.
      rewrite fmap_cons, Hx. now left. }
  cbn [snd]. set (new := Item.mk _ _ _ _ _). set (c1 := Cart.mk _ _ _ _).
  rewrite (scan_eq clk2 tag cart_id (mkServer (products s) _) p Hne Hp).
  cbv zeta. cbn [snd products carts]. fold cid. rewrite cart_of_insert.
  destruct (toggle_cases (at_scanned clk2) (normalize tag) p c1)
    as [(_ & Hnin1 & _)|(l1 & x & l2 & Hl & Hx & H1 & ->)].
  { exfalso. apply Hnin1. unfold c1. cbn. rewrite fmap_app. apply elem_of_app. right.
    cbn. now left. }
  unfold c1 in Hl. cbn [Cart.items] in Hl.
  assert (Hsplit : Cart.items c ++ new :: [] = l1 ++ x :: l2) by exact Hl.
  apply (first_match_unique (normalize tag)) in Hsplit as (<- & _ & <-);
    [|reflexivity|exact Hx|exact Hnin|exact H1].
  cbn [snd]. unfold c1. cbn [Cart.id Cart.total Cart.createdAt].
  rewrite insert_insert_eq, app_nil_r.
  replace (Cart.total c + Product.price p - Product.price p) with (Cart.total c) by lia.
  replace (Cart.mk (Cart.id c) (Cart.items c) (Cart.total c) (Cart.createdAt c))
    with c by now destruct c.
  rewrite insert_id by exact Hc. now destruct s.
Qed.

Lemma scan_twice_absent_restores_state_witness :
  "cafebabe" <> "" /\ is_Some (products demo !! normalize "cafebabe") /\
  carts demo !! default "default" (Some "c1") = Some demo_cart /\
  (normalize "cafebabe" ∉ Item.tag_id <$> Cart.items demo_cart) /\
  (handle clock0 (Scan (Some "cafebabe") (Some "c1"))
     (handle clock0 (Scan (Some "cafebabe") (Some "c1")) demo).2).2 = demo.
Proof.
  assert (Hne : "cafebabe" <> "") by discriminate.
  assert (Hp : is_Some (products demo !! normalize "cafebabe")) by (vm_compute; eauto).
  assert (Hnin : normalize "cafebabe" ∉ Item.tag_id <$> Cart.items demo_cart).
  { intros H. apply list_elem_of_In in H. vm_compute in H.
    destruct H as [H|[H|[]]]; discriminate. }
  split; [exact Hne|]. split; [exact Hp|]. split; [exact demo_lookup|].
  split; [exact Hnin|].
  exact (scan_twice_absent_restores_state clock0 clock0 "cafebabe" (Some "c1") demo
           demo_cart Hne Hp demo_lookup Hnin).
Defined.

(** X22: in a reachable state, scanning a tag that the cart holds and
    scanning it again does not restore the cart: the item is removed
    from its place and a new item for the tag, stamped with the time of
    the second scan, is appended at the end; total, [id] and [createdAt]
    are as before. *)
Theorem scan_twice_present_moves_item clk1 clk2 tag cart_id s c l1 x l2 :
  reachable s ->
  carts s !! default "default" cart_id = Some c ->
  Cart.items c = l1 ++ x :: l2 ->
  Item.tag_id x = normalize tag ->
  exists p,
    catalog !! normalize tag = Some p /\
    carts (handle clk2 (Scan (Some tag) cart_id)
             (handle clk1 (Scan (Some tag) cart_id) s).2).2
      !! default "default" cart_id =
    Some (Cart.mk (Cart.id c)
            (l1 ++ l2 ++
               [Item.mk (normalize tag) (Product.name p) (Product.price p)
                        (Product.category p) (at_scanned clk2)])
            (Cart.total c) (Cart.createdAt c)).
Proof.
  intros Hr Hc Hl Hx. unfold handle.
  destruct (reachable_inv s Hr _ c Hc) as [_ Hn Hpr].
  assert (Hp : exists p, products s !! normalize tag = Some p).
  { rewrite Hl in Hpr. apply Forall_app in Hpr as [_ Hpr].
    apply Forall_cons in Hpr as [(p & Hp & _) _]. rewrite Hx in Hp. eauto. }
  destruct Hp as [p Hp]. exists p.
  split; [now rewrite <- (reachable_products s Hr)|].
  assert (Hne : tag <> "").
  { intros ->. rewrite (reachable_products s Hr) in Hp. vm_compute in Hp. discriminate. }
  rewrite Hl, fmap_app, fmap_cons, Hx in Hn.
  apply NoDup_app in Hn as (_ & H2 & H3). apply NoDup_cons in H3 as [H3 _].
  assert (Hn1 : normalize tag ∉ Item.tag_id <$> l1).
  { intros H. apply (H2 _ H). now left. }
  rewrite (scan_eq clk1 tag cart_id s p Hne Hp). cbv zeta. cbn [snd].
  set (cid := default "default" cart_id) in *.
  assert (Hc0 : cart_of (at_getCart clk1) cid s = c) by (unfold cart_of; now rewrite Hc).
  rewrite Hc0.
  destruct (toggle_cases (at_scanned clk1) (normalize tag) p c)
    as [(_ & Hnin & _)|(l1' & x' & l2' & Hl' & Hx' & H1' & ->)].
  { exfalso. apply Hnin. rewrite Hl, fmap_app. apply elem_of_app. right.
    rewrite fmap_cons, Hx. now left. }
  rewrite Hl in Hl'. symmetry in Hl'.
  apply (first_match_unique (normalize tag)) in Hl' as (-> & -> & ->);
    [|exact Hx'|exact Hx|exact H1'|exact Hn1].
  cbn [snd]. set (c1 := Cart.mk _ _ _ _).
  rewrite (scan_eq clk2 tag cart_id (mkServer (products s) _) p Hne Hp).
  cbv zeta. cbn [snd products carts]. fold cid. rewrite cart_of_insert.
  destruct (toggle_cases (at_scanned clk2) (normalize tag) p c1)
    as [(_ & _ & ->)|(k1 & y & k2 & Hk & Hy & _ & _)].
  2:{ exfalso. unfold c1 in Hk. cbn [Cart.items] in Hk.
      assert (Hin : normalize tag ∈ Item.tag_id <$> (l1 ++ l2)).
      { rewrite Hk, fmap_app. apply elem_of_app. right. rewrite fmap_cons, Hy. now left. }
      rewrite fmap_app in Hin. apply elem_of_app in Hin as [Hin|Hin]; tauto. }
  cbn [snd]. rewrite lookup_insert_eq. unfold c1. cbn.
  rewrite <- app_assoc. do 2 f_equal. lia.
Qed.

Lemma scan_twice_present_moves_item_witness :
  reachable demo /\
  carts demo !! default "default" (Some "c1") = Some demo_cart /\
  Cart.items demo_cart =
    [] ++ Item.mk "A1B2C3D4" "Milk (1L)" 40 "Dairy" 0
       :: [Item.mk "DEADBEEF" "Apple Juice (500ml)" 80 "Beverages" 0] /\
  Item.tag_id (Item.mk "A1B2C3D4" "Milk (1L)" 40 "Dairy" 0) = normalize "a1b2c3d4" /\
  exists p,
    catalog !! normalize "a1b2c3d4" = Some p /\
    carts (handle clock0 (Scan (Some "a1b2c3d4") (Some "c1"))
             (handle clock0 (Scan (Some "a1b2c3d4") (Some "c1")) demo).2).2
      !! default "default" (Some "c1") =
    Some (Cart.mk (Cart.id demo_cart)
            ([] ++ [Item.mk "DEADBEEF" "Apple Juice (500ml)" 80 "Beverages" 0] ++
               [Item.mk (normalize "a1b2c3d4") (Product.name p) (Product.price p)
                        (Product.category p) (at_scanned clock0)])
            (Cart.total demo_cart) (Cart.createdAt demo_cart)).
Proof.
  split; [exact demo_reachable|]. split; [exact demo_lookup|].
  split; [reflexivity|]. split; [reflexivity|].
  exact (scan_twice_present_moves_item clock0 clock0 "a1b2c3d4" (Some "c1") demo
           demo_cart [] _ _ demo_reachable demo_lookup eq_refl eq_refl).
Defined.

(** ** Reading after writing *)

(** X23: the catalog listing never changes: in every reachable state
    [GET /api/products] answers 200 with the catalog the process started
    with and leaves the state as it is. *)
Theorem products_listing_is_catalog clk s :
  reachable s ->
  handle clk Products s = ((200, ProductsBody catalog), s).
Proof. intros Hr. simpl. unfold products_get. now rewrite (reachable_products s Hr). Qed.

Lemma products_listing_is_catalog_witness :
  reachable demo /\ handle clock0 Products demo = ((200, ProductsBody catalog), demo).
Proof.
  split; [exact demo_reachable|].
  exact (products_listing_is_catalog clock0 demo demo_reachable).
Defined.

(** X24: the cart a reply carries (the reply of a successful scan or
    simulate, of a clear, or of a read of a cart) is the cart a following
    read of that cart id returns, and that read changes nothing. *)
Theorem read_after_write clk1 clk2 r cartId s body c :
  target r = Some cartId ->
  (handle clk1 r s).1 = (200, body) ->
  body_cart body = Some c ->
  handle clk2 (GetCart cartId) (handle clk1 r s).2 =
  ((200, CartBody c), (handle clk1 r s).2).
Proof.
  intros Ht Hresp Hbody.
  assert (Hstored : carts (handle clk1 r s).2 !! cartId = Some c).
  { destruct r as [tag_id cart_id|id|id|id|tagId| |]; simpl in Ht;
      try discriminate; injection Ht as <-; unfold handle in *.
    - destruct (scan_cases clk1 tag_id cart_id s)
        as [[E _]|[(tag & _ & _ & _ & E)|(tag & p & -> & Hne & Hp & _ & _)]].
      + rewrite E in Hresp. discriminate Hresp.
      + rewrite E in Hresp. discriminate Hresp.
      + rewrite (scan_eq clk1 tag cart_id s p Hne Hp) in Hresp |- *.
        cbv zeta in *. cbn [fst snd carts] in *.
        injection Hresp as <-. injection Hbody as <-. apply lookup_insert_eq.
    - rewrite cart_get_eq in *. cbn [fst snd carts] in *.
      injection Hresp as <-. injection Hbody as <-. apply lookup_insert_eq.
    - unfold cart_clear in *. cbn [fst snd carts] in *.
      injection Hresp as <-. injection Hbody as <-. apply lookup_insert_eq.
    - rewrite checkout_eq in Hresp. cbv zeta in Hresp.
      destruct (Cart.items _); [discriminate Hresp|].
      injection Hresp as <-. discriminate.
    - destruct (decide (tagId = "")) as [->|Hne].
      + unfold simulate in *. destruct (products s !! normalize "") as [p|];
          [|discriminate Hresp].
        rewrite getCart_eq in *. destruct (negb _); cbn [fst snd carts] in *;
          injection Hresp as <-; injection Hbody as <-; apply lookup_insert_eq.
      + rewrite simulate_scan in * by assumption.
        destruct (scan_cases clk1 (Some tagId) (Some "default") s)
          as [[E _]|[(tag & _ & _ & _ & E)|(tag & p & [= <-] & Hne' & Hp & _ & _)]].
        * rewrite E in Hresp. discriminate Hresp.
        * rewrite E in Hresp. discriminate Hresp.
        * rewrite (scan_eq clk1 tagId (Some "default") s p Hne' Hp) in Hresp |- *.
          cbv zeta in *. cbn [fst snd carts default] in *.
          injection Hresp as <-. injection Hbody as <-. apply lookup_insert_eq. }
  unfold handle at 1. rewrite cart_get_eq.
  assert (Hof : cart_of (at_getCart clk2) cartId (handle clk1 r s).2 = c)
    by (unfold cart_of; now rewrite Hstored).
  rewrite Hof. f_equal. rewrite insert_id by exact Hstored.
  now destruct (handle clk1 r s).2.
Qed.

Lemma read_after_write_witness :
  target (Clear "c1") = Some "c1" /\
  (handle clock0 (Clear "c1") demo).1 =
    (200, ClearBody "Cart cleared" (Cart.mk "c1" [] 0 0)) /\
  body_cart (ClearBody "Cart cleared" (Cart.mk "c1" [] 0 0)) = Some (Cart.mk "c1" [] 0 0) /\
  handle clock0 (GetCart "c1") (handle clock0 (Clear "c1") demo).2 =
  ((200, CartBody (Cart.mk "c1" [] 0 0)), (handle clock0 (Clear "c1") demo).2).
Proof.
  split; [reflexivity|]. split; [reflexivity|]. split; [reflexivity|].
  exact (read_after_write clock0 clock0 (Clear "c1") "c1" demo _ _
           eq_refl eq_refl eq_refl).
Defined.

(** ** The store object and the finite map *)

Lemma plain_id_spec k :
  plain_id k = true ->
  (k ∉ object_prototype_names) /\ k <> "__proto__" /\
  k <> "id" /\ k <> "items" /\ k <> "total" /\ k <> "createdAt".
Proof.
  unfold plain_id. intros [H1 H2]%andb_true_iff.
  apply negb_true_iff, bool_decide_eq_false in H1.
  apply negb_true_iff, bool_decide_eq_false in H2.
  split; [exact H1|]. split.
  - intros ->. apply H1. unfold object_prototype_names. set_solver.
  - unfold cart_field_names in H2. repeat split; intros ->; apply H2; set_solver.
Qed.

Lemma obj_read_write k c st : Obj.read k (Obj.write k c st) = Obj.ACart c.
Proof.
  unfold Obj.read, Obj.write. destruct (decide (k = "__proto__")) as [->|Hk].
  - reflexivity.
  - rewrite !bool_decide_eq_false_2 by exact Hk. simpl. now rewrite lookup_insert_eq.
Qed.

(** On a plain id the object is the map of its own properties. *)
Lemma obj_read_plain k st :
  plain_id k = true ->
  Obj.read k st = from_option Obj.ACart Obj.Undefined (Obj.own st !! k).
Proof.
  intros (Hn & Hp & H1 & H2 & H3 & H4)%plain_id_spec. unfold Obj.read.
  rewrite bool_decide_eq_false_2 by exact Hp.
  destruct (Obj.own st !! k) as [c|]; [reflexivity|]. simpl.
  assert (Ho : Obj.from_Object_prototype k = Obj.Undefined).
  { unfold Obj.from_Object_prototype. now rewrite bool_decide_eq_false_2. }
  destruct (Obj.proto st); [|exact Ho].
  now rewrite !bool_decide_eq_false_2 by assumption.
Qed.

Lemma obj_write_plain k c st :
  k <> "__proto__" ->
  Obj.write k c st = Obj.mk (<[k := c]> (Obj.own st)) (Obj.proto st).
Proof. intros Hk. unfold Obj.write. now rewrite bool_decide_eq_false_2. Qed.

Lemma obj_getCart_plain now k s p :
  plain_id k = true ->
  Obj.getCart now k (Obj.mk (carts s) p) =
  (Obj.ACart (getCart now k s).1, Obj.mk (carts (getCart now k s).2) p).
Proof.
  intros Hk. pose proof (plain_id_spec k Hk) as (_ & Hp & _).
  unfold Obj.getCart, getCart. rewrite obj_read_plain by exact Hk. cbn [Obj.own].
  destruct (carts s !! k) as [c|] eqn:E; cbn.
  - reflexivity.
  - rewrite obj_read_write, obj_write_plain by exact Hp. reflexivity.
Qed.

(** On a plain id the clear and checkout handlers of the object are
    those of the finite map. *)
Lemma obj_clear_plain clk k s p :
  plain_id k = true ->
  Obj.cart_clear clk k (Obj.mk (carts s) p) =
  Obj.Replied (cart_clear clk k s).1 (Obj.mk (carts (cart_clear clk k s).2) p).
Proof.
  intros Hk. pose proof (plain_id_spec k Hk) as (_ & Hp & _).
  unfold Obj.cart_clear, cart_clear. cbn [fst snd carts].
  now rewrite obj_write_plain by exact Hp.
Qed.

Lemma obj_checkout_plain clk k s p :
  plain_id k = true ->
  Obj.cart_checkout clk k (Obj.mk (carts s) p) =
  Obj.Replied (cart_checkout clk k s).1 (Obj.mk (carts (cart_checkout clk k s).2) p).
Proof.
  intros Hk. pose proof (plain_id_spec k Hk) as (_ & Hp & _).
  unfold Obj.cart_checkout, cart_checkout.
  rewrite obj_getCart_plain by exact Hk.
  destruct (getCart (at_getCart clk) k s) as [c s1]. cbn [fst snd].
  destruct (length (Cart.items c) =? 0)%nat; [reflexivity|].
  cbn [fst snd carts]. now rewrite obj_write_plain by exact Hp.
Qed.

(** ** The claims that quantify over every cart id *)

Lemma obj_proto_truthy st : Obj.truthy (Obj.read "__proto__" st) = true.
Proof. unfold Obj.read. simpl. now destruct (Obj.proto st). Qed.

(** C4, as the code has it: checkout of a cart id whose cart has no
    items fails with EmptyCart (status 400).  When the id resolves to a
    cart (its items being empty), the store is unchanged; when it
    resolves to nothing, the lookup first stores an empty cart as an own
    property under that id, and this is the only change. *)
Theorem checkout_empty clk cartId st :
  (forall c, Obj.read cartId st = Obj.ACart c -> Cart.items c = [] ->
     Obj.cart_checkout clk cartId st =
     Obj.Replied (400, ErrorBody "Cart is empty") st) /\
  (Obj.truthy (Obj.read cartId st) = false ->
     Obj.cart_checkout clk cartId st =
     Obj.Replied (400, ErrorBody "Cart is empty")
       (Obj.mk (<[cartId := Cart.mk cartId [] 0 (at_getCart clk)]> (Obj.own st))
               (Obj.proto st))).
Proof.
  split.
  - intros c Hc He. unfold Obj.cart_checkout, Obj.getCart.
    rewrite Hc. cbn. now rewrite He.
  - intros Hf. unfold Obj.cart_checkout, Obj.getCart. rewrite Hf.
    assert (Hk : cartId <> "__proto__").
    { intros ->. rewrite obj_proto_truthy in Hf. discriminate. }
    rewrite obj_read_write, obj_write_plain by exact Hk. reflexivity.
Qed.

Lemma checkout_empty_witness :
  Obj.truthy (Obj.read "c1" Obj.initial) = false /\
  Obj.cart_checkout clock0 "c1" Obj.initial =
  Obj.Replied (400, ErrorBody "Cart is empty")
    (Obj.mk (<["c1" := Cart.mk "c1" [] 0 (at_getCart clock0)]> (Obj.own Obj.initial))
            (Obj.proto Obj.initial)).
Proof.
  assert (Hf : Obj.truthy (Obj.read "c1" Obj.initial) = false) by reflexivity.
  split; [exact Hf|].
  exact (proj2 (checkout_empty clock0 "c1" Obj.initial) Hf).
Defined.

(** C8: clear never fails: for every cart id, also one that names an
    inherited property, and every state of the store it answers 200 with
    a fresh cart (no items, total 0, [createdAt] the current time), and
    afterwards a lookup of that id yields this cart, whatever it yielded
    before; on an id whose lookup yields nothing the resulting store is
    the one [getCart] produces by creating the empty cart. *)
Theorem clear_replaces clk cartId st :
  let fresh := Cart.mk cartId [] 0 (at_cleared clk) in
  exists st',
    Obj.cart_clear clk cartId st =
      Obj.Replied (200, ClearBody "Cart cleared" fresh) st' /\
    Obj.read cartId st' = Obj.ACart fresh /\
    (Obj.truthy (Obj.read cartId st) = false ->
     Obj.getCart (at_cleared clk) cartId st = (Obj.ACart fresh, st')).
Proof.
  cbv zeta. eexists. split; [reflexivity|]. split; [apply obj_read_write|].
  intros Hf. unfold Obj.getCart. rewrite Hf. now rewrite obj_read_write.
Qed.

Lemma clear_replaces_witness :
  Obj.truthy (Obj.read "c2" Obj.initial) = false /\
  exists st',
    Obj.cart_clear clock0 "c2" Obj.initial =
      Obj.Replied (200, ClearBody "Cart cleared" (Cart.mk "c2" [] 0 (at_cleared clock0))) st' /\
    Obj.read "c2" st' = Obj.ACart (Cart.mk "c2" [] 0 (at_cleared clock0)) /\
    (Obj.truthy (Obj.read "c2" Obj.initial) = false ->
     Obj.getCart (at_cleared clock0) "c2" Obj.initial =
     (Obj.ACart (Cart.mk "c2" [] 0 (at_cleared clock0)), st')).
Proof.
  split; [reflexivity|]. exact (clear_replaces clock0 "c2" Obj.initial).
Defined.

(** C10, where the code departs from it: clearing the cart id
    ["__proto__"] on a store that has just started makes the cleared cart
    the prototype of the store, and the lookups of the other ids ["id"],
    ["items"] and ["createdAt"], which yielded nothing, now yield fields
    of that cart. *)
Theorem clear_proto_changes_other_ids :
  exists st',
    Obj.cart_clear clock0 "__proto__" Obj.initial =
      Obj.Replied (200, ClearBody "Cart cleared" (Cart.mk "__proto__" [] 0 0)) st' /\
    Obj.read "items" Obj.initial = Obj.Undefined /\
    Obj.read "items" st' = Obj.Other true /\
    Obj.read "id" Obj.initial = Obj.Undefined /\
    Obj.read "id" st' = Obj.Other true /\
    Obj.read "createdAt" Obj.initial = Obj.Undefined /\
    Obj.read "createdAt" st' = Obj.Other true.
Proof. eexists. repeat split; vm_compute; reflexivity. Qed.

(** ** Instances on the sample run *)

Lemma scan_succeeds_iff_witness :
  plain_id (default "default" (Some "c1")) = true /\
  (forall tag, Some "a1b2c3d4" = Some tag -> ascii_only tag = true) /\
  ((handle clock0 (Scan (Some "a1b2c3d4") (Some "c1")) demo).1.1 = 200 <->
   exists tag, Some "a1b2c3d4" = Some tag /\ tag <> "" /\
               is_Some (products demo !! normalize tag)).
Proof.
  assert (Ha : forall tag, Some "a1b2c3d4" = Some tag -> ascii_only tag = true)
    by (intros tag [= <-]; reflexivity).
  split; [reflexivity|]. split; [exact Ha|].
  exact (scan_succeeds_iff clock0 (Some "a1b2c3d4") (Some "c1") demo eq_refl Ha).
Defined.

Lemma checkout_after_reset_witness :
  plain_id "c1" = true /\
  handle clock0 (Checkout "c1") (handle clock0 (Checkout "c1") demo).2 =
  (EmptyCart, (handle clock0 (Checkout "c1") demo).2).
Proof.
  split; [reflexivity|].
  exact (proj2 (checkout_after_reset clock0 clock0 "c1" demo eq_refl)).
Defined.

Lemma normalize_fixed_points_witness :
  ascii_only "A1B2C3D4" = true /\
  has_lower (normalize "A1B2C3D4") = false /\
  has_space (normalize "A1B2C3D4") = false /\
  (normalize "A1B2C3D4" = "A1B2C3D4" <->
   has_lower "A1B2C3D4" = false /\ has_space "A1B2C3D4" = false) /\
  normalize (normalize "A1B2C3D4") = normalize "A1B2C3D4".
Proof.
  split; [reflexivity|]. exact (normalize_fixed_points "A1B2C3D4" eq_refl).
Defined.

(** X25: a request leaves the catalog as it is, and leaves the store
    entry of every plain cart id other than the one it addresses as it
    is (scan addresses its [cart_id] or "default", simulate addresses
    "default", the health and products requests address none). *)
Theorem plain_ids_frame clk r s other :
  plain_id other = true ->
  target r <> Some other ->
  products (handle clk r s).2 = products s /\
  carts (handle clk r s).2 !! other = carts s !! other.
Proof.
  intros _ Hne. split; [apply handle_products | now apply handle_frame].
Qed.

Lemma plain_ids_frame_witness :
  plain_id "c1" = true /\
  target (Scan (Some "CAFEBABE") (Some "c2")) <> Some "c1" /\
  products (handle clock0 (Scan (Some "CAFEBABE") (Some "c2")) demo).2 = products demo /\
  carts (handle clock0 (Scan (Some "CAFEBABE") (Some "c2")) demo).2 !! "c1" =
  carts demo !! "c1".
Proof.
  assert (Hne : target (Scan (Some "CAFEBABE") (Some "c2")) <> Some "c1")
    by (simpl; discriminate).
  split; [reflexivity|]. split; [exact Hne|].
  exact (plain_ids_frame clock0 (Scan (Some "CAFEBABE") (Some "c2")) demo "c1" eq_refl Hne).
Defined.

(** Checkout of an id whose lookup yields an inherited value that is no
    cart throws and leaves the store as it is; so it does for
    ["constructor"] on a store that has just started. *)
Lemma checkout_inherited_throws clk cartId st :
  Obj.read cartId st = Obj.Other true ->
  Obj.cart_checkout clk cartId st = Obj.Threw st.
Proof. intros H. unfold Obj.cart_checkout, Obj.getCart. now rewrite H. Qed.

Example checkout_constructor_throws :
  Obj.cart_checkout clock0 "constructor" Obj.initial = Obj.Threw Obj.initial.
Proof. reflexivity. Qed.
